(** * bouldercenter-crawler: the site adapters of [crawl.py]

    A shallow embedding of the dispatcher, the two vendor adapters, the
    point builder and the loop of [main] of [src/crawl.py], and the
    properties the specification states about them.

    Conventions of the embedding:
    - a Python [str] is a [string]; characters are code points below 256,
      which is where [str.isspace] and the decimal digits are modelled;
    - a Python [dict] with string keys is a [gmap string _];
    - a Python [int] is a [Z] (unbounded, as in Python);
    - a call that may raise returns a [result], [Raise e] carrying the
      exception; sequencing is the bind of that monad, so the first raise
      wins, as in the source;
    - the HTTP fetch and the HTML parser are collaborators of the program:
      they are Section variables, and the adapters are functions of them;
      either may raise. *)

From Stdlib Require Import ZArith Ascii String List.
From stdpp Require Import base option list gmap strings.

Local Open Scope string_scope.
Local Open Scope Z_scope.

(** ** Exceptions and results *)

(** What a [ValueError] was raised with.  The interpreter's own messages
    are kept structured: [invalid_literal s] is the [ValueError] that
    [int(s)] raises, whether [s] is not an integer or has more digits than
    the interpreter converts; [message] is an f-string built by the
    program. *)
Inductive ValueError_args :=
| invalid_literal (s : string)
| dict_update_length (index len : nat)
| message (msg : string).

(** The exception classes that [crawl.py] and its callees can raise. *)
Inductive exn :=
| AttributeError
| TypeError
| IndexError
| ZeroDivisionError
| KeyError (key : string)
| ValueError (args : ValueError_args)
| RequestException
| ParserRejectedMarkup.

Inductive result (A : Type) :=
| Ok (a : A)
| Raise (e : exn).
Arguments Ok {A} a.
Arguments Raise {A} e.

#[global] Instance result_ret : MRet result := @Ok.
#[global] Instance result_bind : MBind result := λ A B f r,
  match r with
  | Ok a => f a
  | Raise e => Raise e
  end.

(** ** The Python built-ins the adapters use *)
Module Py.

(** [str.isspace] on a code point below 256. *)
Definition isspace (c : ascii) : bool :=
  let n := N_of_ascii c in
  ((9 <=? n) && (n <=? 13) || (28 <=? n) && (n <=? 32)
   || (n =? 133) || (n =? 160))%N.

Definition isdigit (c : ascii) : bool :=
  let n := N_of_ascii c in ((48 <=? n) && (n <=? 57))%N.

Definition digit_value (c : ascii) : Z := Z.of_N (N_of_ascii c) - 48.

Fixpoint lstrip_chars (l : list ascii) : list ascii :=
  match l with
  | [] => []
  | c :: l' => if isspace c then lstrip_chars l' else l
  end.

Definition rstrip_chars (l : list ascii) : list ascii :=
  rev (lstrip_chars (rev l)).

Definition strip_chars (l : list ascii) : list ascii :=
  rstrip_chars (lstrip_chars l).

(** [s.strip()] *)
Definition strip (s : string) : string :=
  string_of_list_ascii (strip_chars (list_ascii_of_string s)).

(** [s.split()]: the maximal runs of non-whitespace characters. *)
Fixpoint split_ws_chars (cur : list ascii) (l : list ascii)
  : list (list ascii) :=
  match l with
  | [] => match cur with [] => [] | _ => [rev cur] end
  | c :: l' =>
      if isspace c
      then match cur with
           | [] => split_ws_chars [] l'
           | _ => rev cur :: split_ws_chars [] l'
           end
      else split_ws_chars (c :: cur) l'
  end.

Definition split_ws (s : string) : list string :=
  string_of_list_ascii <$> split_ws_chars [] (list_ascii_of_string s).

(** [s.split(sep)] for a separator of one character: never empty. *)
Fixpoint split_chars (sep : ascii) (cur : list ascii) (l : list ascii)
  : list (list ascii) :=
  match l with
  | [] => [rev cur]
  | c :: l' =>
      if bool_decide (c = sep)
      then rev cur :: split_chars sep [] l'
      else split_chars sep (c :: cur) l'
  end.

Definition split (sep : ascii) (s : string) : list string :=
  string_of_list_ascii <$> split_chars sep [] (list_ascii_of_string s).

(** [s[:-1]]: all but the last character; the empty string stays empty. *)
Definition drop_last_chars (l : list ascii) : list ascii :=
  take (length l - 1)%nat l.

Definition drop_last (s : string) : string :=
  string_of_list_ascii (drop_last_chars (list_ascii_of_string s)).

(** The digits of [int(s)]: decimal digits, with single underscores
    allowed between two digits.  [prev] says that the previous character
    was a digit. *)
Fixpoint digits_value (acc : Z) (prev : bool) (l : list ascii) : option Z :=
  match l with
  | [] => if prev then Some acc else None
  | c :: l' =>
      if isdigit c then digits_value (10 * acc + digit_value c) true l'
      else if bool_decide (c = "_"%char)
           then (if prev then digits_value acc false l' else None)
           else None
  end.

Definition signed_value (l : list ascii) : option Z :=
  match l with
  | [] => None
  | c :: l' =>
      if bool_decide (c = "-"%char) then Z.opp <$> digits_value 0 false l'
      else if bool_decide (c = "+"%char) then digits_value 0 false l'
      else digits_value 0 false l
  end.

(** The whitespace [int] skips around the number: the ASCII whitespace
    of C, and the two other whitespace code points below 256.  The
    separators 28 to 31, which [str.strip] removes, are not skipped. *)
Definition int_isspace (c : ascii) : bool :=
  let n := N_of_ascii c in
  ((9 <=? n) && (n <=? 13) || (n =? 32) || (n =? 133) || (n =? 160))%N.

Fixpoint int_lstrip_chars (l : list ascii) : list ascii :=
  match l with
  | [] => []
  | c :: l' => if int_isspace c then int_lstrip_chars l' else l
  end.

Definition int_strip_chars (l : list ascii) : list ascii :=
  rev (int_lstrip_chars (rev (int_lstrip_chars l))).

(** [sys.int_info.default_max_str_digits]: the most digits [int]
    converts. *)
Definition max_str_digits : nat := 4300.

Definition count_digits (l : list ascii) : nat :=
  length (List.filter isdigit l).

Definition int_chars (l : list ascii) : option Z :=
  let number := int_strip_chars l in
  if (max_str_digits <? count_digits number)%nat then None
  else signed_value number.

(** [int(s)] in base 10: surrounding whitespace is ignored, one sign is
    allowed, and at most [max_str_digits] digits; anything else raises
    [ValueError]. *)
Definition int (s : string) : result Z :=
  match int_chars (list_ascii_of_string s) with
  | Some n => Ok n
  | None => Raise (ValueError (invalid_literal s))
  end.

(** [a // b] *)
Definition floordiv (a b : Z) : result Z :=
  if b =? 0 then Raise ZeroDivisionError else Ok (a / b).

(** [d[k]] on a dict. *)
Definition getitem {V} (d : gmap string V) (k : string) : result V :=
  match d !! k with
  | Some v => Ok v
  | None => Raise (KeyError k)
  end.

(** [l[0]] on a list. *)
Definition first {A} (l : list A) : result A :=
  match l with
  | x :: _ => Ok x
  | [] => Raise IndexError
  end.

(** [dict(items)] where every item must be a sequence of length 2; later
    keys replace earlier ones. *)
Fixpoint dict_update (d : gmap string string) (i : nat)
    (items : list (list string)) : result (gmap string string) :=
  match items with
  | [] => Ok d
  | [k; v] :: items' => dict_update (<[k := v]> d) (S i) items'
  | item :: _ => Raise (ValueError (dict_update_length i (length item)))
  end.

Definition dict (items : list (list string)) : result (gmap string string) :=
  dict_update ∅ 0 items.

End Py.

(** ** The markup queries the adapters use

    The parsed document as BeautifulSoup presents it: a tree of tags,
    strings and comments.  The adapters only use "first tag below this one
    with a given name (and class)", "the text below a tag" and "the value
    of an attribute". *)
Module Bs4.

#[warnings="-register-all"]
Inductive node :=
| NavigableString (s : string)
| Comment (s : string)
| Element (name : string) (attrs : gmap string string) (contents : list node).

(** A tag (the parsed document itself is one, named [[document]]). *)
Record Tag := mkTag {
  name : string;
  attrs : gmap string string;
  contents : list node;
}.

Definition first_some {A B} (f : A → option B) : list A → option B :=
  fix go (l : list A) : option B :=
    match l with
    | [] => None
    | x :: l' => match f x with Some y => Some y | None => go l' end
    end.

(** The first tag accepted by [p] among a node and the nodes below it, in
    document order. *)
Fixpoint find_node (p : string → gmap string string → bool) (n : node)
  : option Tag :=
  match n with
  | Element nm ats cs =>
      if p nm ats then Some (mkTag nm ats cs)
      else first_some (find_node p) cs
  | _ => None
  end.

(** [tag.find(...)]: the first matching tag strictly below [tag], or
    [None]. *)
Definition find (p : string → gmap string string → bool) (t : Tag)
  : option Tag :=
  first_some (find_node p) (contents t).

(** The query [find("span")]. *)
Definition named (nm : string) : string → gmap string string → bool :=
  λ nm' _, bool_decide (nm' = nm).

(** The query [find("div", {"class": c})]: [class] is a list of
    whitespace-separated names, one of which must be [c]. *)
Definition div_class (c : string) : string → gmap string string → bool :=
  λ nm ats,
    bool_decide (nm = "div")
    && match ats !! "class" with
       | Some v => bool_decide (c ∈ Py.split_ws v)
       | None => false
       end.

Fixpoint strings (n : node) : list string :=
  match n with
  | NavigableString s => [s]
  | Comment _ => []
  | Element _ _ cs => flat_map strings cs
  end.

(** [tag.text]: the strings below the tag, concatenated. *)
Definition text (t : Tag) : string :=
  String.concat "" (flat_map strings (contents t)).

(** [x.find(...)] and [x.text] where [x] is the result of a [find]:
    on [None] the attribute access raises [AttributeError]. *)
Definition attribute_of (x : option Tag) : result Tag :=
  match x with
  | Some t => Ok t
  | None => Raise AttributeError
  end.

(** [x[key]] where [x] is the result of a [find]: [None] is not
    subscriptable, and a tag without the attribute raises [KeyError]. *)
Definition subscript (x : option Tag) (key : string) : result string :=
  match x with
  | Some t => Py.getitem (attrs t) key
  | None => Raise TypeError
  end.

End Bs4.

(** ** The data of [crawl.py] *)

(** [SiteConfig]: a section of the configuration file, as a dict. *)
Abbreviation SiteConfig := (gmap string string).

Record CrawlResult := mkCrawlResult {
  free : Z;
  active : Z;
}.

(** The message of [create_point_message]. *)
Record PointMessage := mkPointMessage {
  measurement : string;
  tags : gmap string string;
  time : string;
  fields : gmap string Z;
}.

(** Left-to-right iteration of a loop body that may raise. *)
Fixpoint for_each {A S} (body : S → A → result S) (s : S) (l : list A)
  : result S :=
  match l with
  | [] => Ok s
  | x :: l' => s' ← body s x; for_each body s' l'
  end.

(** ** The adapters *)
Section Adapters.

(** [requests.get(url).text]: the body of the response, or the exception
    the transport raises. *)
Variable requests_get : string → result string.

(** [BeautifulSoup(text, "html.parser")]: the parsed document, or the
    exception of the parser on markup it rejects. *)
Variable BeautifulSoup : string → result Bs4.Tag.

(** Lines 18-20: the document of a boulderado site. *)
Definition boulderado_soup (site_config : SiteConfig) : result Bs4.Tag :=
  token ← Py.getitem site_config "token";
  let url :=
    "https://www.boulderado.de/boulderadoweb/gym-clientcounter/index.php?mode=get&token="
    +:+ token in
  page ← requests_get url;
  BeautifulSoup page.

(** Lines 25-30: one counter, read from the span below the div of class
    [<count_value>counter-content]. *)
Definition boulderado_count (soup : Bs4.Tag) (count_value : string)
  : result Z :=
  div ← Bs4.attribute_of
          (Bs4.find (Bs4.div_class (count_value +:+ "counter-content")) soup);
  span ← Bs4.attribute_of (Bs4.find (Bs4.named "span") div);
  let count_string := Bs4.text span in
  Py.int count_string.

(** Lines 22-33. *)
Definition boulderado_result (soup : Bs4.Tag) : result CrawlResult :=
  data ← for_each
           (λ (data : gmap string Z) count_value,
              count ← boulderado_count soup count_value;
              Ok (<[count_value := count]> data))
           ∅ ["act"; "free"];
  free ← Py.getitem data "free";
  act ← Py.getitem data "act";
  Ok {| free := free; active := act |}.

Definition crawl_boulderado (site_config : SiteConfig) : result CrawlResult :=
  soup ← boulderado_soup site_config;
  boulderado_result soup.

(** Lines 36-38: the document of a webclimber site. *)
Definition webclimber_soup (site_config : SiteConfig) : result Bs4.Tag :=
  clientid ← Py.getitem site_config "clientid";
  token ← Py.getitem site_config "token";
  let url :=
    "https://" +:+ clientid +:+ ".webclimber.de/de/trafficlight?key="
    +:+ token in
  page ← requests_get url;
  BeautifulSoup page.

(** Line 41: the first word of the status text. *)
Definition free_slots_str (soup : Bs4.Tag) : result string :=
  status ← Bs4.attribute_of (Bs4.find (Bs4.div_class "status_text") soup);
  Py.first (Py.split_ws (Py.strip (Bs4.text status))).

(** Lines 42-47: [-1] stands for a first word that is not a number. *)
Definition free_slots_of (free_slots_str : string) : result Z :=
  match Py.int free_slots_str with
  | Raise (ValueError _) => Ok (-1)
  | r => r
  end.

(** Line 55, applied to the value of the [width] property. *)
Definition width_int (width : string) : result Z :=
  Py.int (Py.drop_last (Py.strip width)).

(** Lines 53-55: the width of the bar, from its [style] attribute. *)
Definition bar_width (soup : Bs4.Tag) : result Z :=
  style ← Bs4.subscript (Bs4.find (Bs4.div_class "bar") soup) "style";
  let style_attr_strs := Py.split ";" style in
  style_attrs ← Py.dict (Py.split ":" <$> style_attr_strs);
  width ← Py.getitem style_attrs "width";
  width_int width.

(** Lines 57-66. *)
Definition slots (free_slots bar_width : Z) : result CrawlResult :=
  '(total_slots, free_slots) ←
    (if free_slots =? -1
     then Ok (100, 100 - bar_width)
     else q ← Py.floordiv free_slots bar_width; Ok (q * 100, free_slots));
  let active_slots := total_slots - free_slots in
  Ok {| free := free_slots; active := active_slots |}.

(** Lines 41-66. *)
Definition webclimber_result (soup : Bs4.Tag) : result CrawlResult :=
  free_slots_str ← free_slots_str soup;
  free_slots ← free_slots_of free_slots_str;
  bar_width ← bar_width soup;
  slots free_slots bar_width.

Definition crawl_webclimber (site_config : SiteConfig) : result CrawlResult :=
  soup ← webclimber_soup site_config;
  webclimber_result soup.

(** ** The dispatcher *)
Definition crawl_site (site_name : string) (site_config : SiteConfig)
  : result CrawlResult :=
  type ← Py.getitem site_config "type";
  if bool_decide (type = "boulderado") then crawl_boulderado site_config
  else if bool_decide (type = "webclimber") then crawl_webclimber site_config
  else
    let other := type in
    Raise (ValueError (message
      ("unknown boulder arena type: " +:+ other +:+ " for site "
       +:+ site_name +:+ "."))).

End Adapters.

(** ** The point builder

    [utcnow] is the reading of the clock, [datetime.utcnow().isoformat()]. *)
Definition create_point_message (utcnow : string) (site_name : string)
    (site_config : SiteConfig) (data : CrawlResult) : PointMessage :=
  let location :=
    match site_config !! "location" with
    | Some l => l
    | None => site_name
    end in
  let message := {|
    measurement := "boulder_center_utilization";
    tags := {[ "location" := location ]};
    time := utcnow;
    fields := <[ "free" := free data ]> {[ "active" := active data ]};
  |} in
  match site_config !! "area" with
  | Some area =>
      {| measurement := measurement message;
         tags := {[ "area" := area ]} ∪ tags message;
         time := time message;
         fields := fields message |}
  | None => message
  end.

(** ** Sample documents

    Small documents of the two vendors, and a transport that serves one
    fixed document, on which the adapters are run. *)
Module Sample.

Definition document (body : list Bs4.node) : Bs4.Tag :=
  Bs4.mkTag "[document]" ∅
    [Bs4.Element "html" ∅ [Bs4.Element "body" ∅ body]].

(** [<div class="{v}counter-content"><span>{count}</span></div>] *)
Definition counter (v count : string) : Bs4.node :=
  Bs4.Element "div" {[ "class" := v +:+ "counter-content" ]}
    [Bs4.Element "span" ∅ [Bs4.NavigableString count]].

Definition boulderado (act free : string) : Bs4.Tag :=
  document [counter "act" act; counter "free" free].

(** [<div class="status_text">{status}</div>
     <div class="bar" style="{style}"></div>] *)
Definition webclimber (status style : string) : Bs4.Tag :=
  document
    [Bs4.Element "div" {[ "class" := "status_text" ]}
       [Bs4.NavigableString status];
     Bs4.Element "div" {[ "class" := "barometer" ]}
       [Bs4.Comment "occupancy";
        Bs4.Element "div" (<[ "style" := style ]> {[ "class" := "bar" ]}) []]].

Definition get : string → result string := λ _, Ok "".
Definition parse (soup : Bs4.Tag) : string → result Bs4.Tag := λ _, Ok soup.

(** A number of [n] digits. *)
Definition ones (n : nat) : string :=
  string_of_list_ascii (repeat "1"%char n).

Definition site_boulderado : SiteConfig :=
  <[ "type" := "boulderado" ]> {[ "token" := "t0k3n" ]}.

Definition site_webclimber : SiteConfig :=
  <[ "type" := "webclimber" ]>
    (<[ "clientid" := "42" ]> (<[ "area" := "boulder" ]> {[ "token" := "t0k3n" ]})).

End Sample.

(** ** Inputs in range

    The conditions on what a document carries under which the adapters
    are shown to return non-negative counts. *)

(** Lines 25-29: the text of one counter. *)
Definition boulderado_count_string (soup : Bs4.Tag) (count_value : string)
  : result string :=
  div ← Bs4.attribute_of
          (Bs4.find (Bs4.div_class (count_value +:+ "counter-content")) soup);
  span ← Bs4.attribute_of (Bs4.find (Bs4.named "span") div);
  Ok (Bs4.text span).

Definition unsigned (s : string) : Prop :=
  "-"%char ∉ list_ascii_of_string s.

(** Neither counter of a boulderado document is written with a minus
    sign. *)
Definition boulderado_in_range (soup : Bs4.Tag) : Prop :=
  ∀ count_value count_string,
    count_value = "act" ∨ count_value = "free" →
    boulderado_count_string soup count_value = Ok count_string →
    unsigned count_string.

(** The first word of the status text of a webclimber document is not
    written with a minus sign, and its bar is a percentage. *)
Definition webclimber_in_range (soup : Bs4.Tag) : Prop :=
  ∃ tok w,
    free_slots_str soup = Ok tok
    ∧ unsigned tok
    ∧ bar_width soup = Ok w
    ∧ 0 ≤ w ≤ 100.

(** Where the status text gives the free slots, the total that line 63
    reconstructs is not below them. *)
Definition total_covers_free (soup : Bs4.Tag) : Prop :=
  ∀ tok f w,
    free_slots_str soup = Ok tok →
    Py.int tok = Ok f →
    bar_width soup = Ok w →
    f ≤ f / w * 100.

(** ** The loop of [main]

    Lines 105-117.  The sections of the configuration that are left once
    [Influx] is popped come as a list, in the order of the file, each with
    its items as a dict.  What the loop prints is kept as the values its
    two f-strings interpolate; the k-th call of [datetime.utcnow] reads
    [utcnow k]. *)
Inductive printed :=
| failed_to_crawl (site_name : string) (error : exn)
| crawled (site_name : string) (site_result : CrawlResult).

Record MainState := mkMainState {
  messages : list PointMessage;
  output : list printed;
  utcnow_calls : nat;
}.

Section Main.

Variable requests_get : string → result string.
Variable BeautifulSoup : string → result Bs4.Tag.
Variable utcnow : nat → string.

(** Lines 108-116: one site. *)
Definition main_site (st : MainState) (site : string * SiteConfig)
  : MainState :=
  let '(site_name, site_config) := site in
  match crawl_site requests_get BeautifulSoup site_name site_config with
  | Raise error =>
      {| messages := messages st;
         output := output st ++ [failed_to_crawl site_name error];
         utcnow_calls := utcnow_calls st |}
  | Ok site_result =>
      let message :=
        create_point_message (utcnow (utcnow_calls st)) site_name
          site_config site_result in
      {| messages := messages st ++ [message];
         output := output st ++ [crawled site_name site_result];
         utcnow_calls := S (utcnow_calls st) |}
  end.

(** Lines 106-117: the final [messages] is what [write_points] is called
    with. *)
Definition main (sites : list (string * SiteConfig)) : MainState :=
  fold_left main_site sites
    {| messages := []; output := []; utcnow_calls := 0 |}.

End Main.

(** The sites that are crawled without an exception, each with its
    result. *)
Definition crawled_sites (get : string → result string)
    (parse : string → result Bs4.Tag) (sites : list (string * SiteConfig))
  : list (string * SiteConfig * CrawlResult) :=
  omap (λ site : string * SiteConfig,
          match crawl_site get parse site.1 site.2 with
          | Ok r => Some (site, r)
          | Raise _ => None
          end) sites.

(** What the loop prints for one site. *)
Definition printed_for (get : string → result string)
    (parse : string → result Bs4.Tag) (site : string * SiteConfig)
  : printed :=
  match crawl_site get parse site.1 site.2 with
  | Ok site_result => crawled site.1 site_result
  | Raise error => failed_to_crawl site.1 error
  end.


(** The messages of the crawled sites, the first of them built at the
    [n]-th reading of the clock. *)
Definition messages_from (utcnow : nat → string) (n : nat)
    (crawled : list (string * SiteConfig * CrawlResult))
  : list PointMessage :=
  imap (λ k x, create_point_message (utcnow (n + k)%nat) x.1.1 x.1.2 x.2)
    crawled.

(** ** A sample installation

    A transport and a parser that serve one document per vendor, told
    apart by the address fetched. *)
Module SampleSites.

Definition get : string → result string := λ url, Ok url.

Definition parse : string → result Bs4.Tag := λ page,
  if String.prefix "https://www.boulderado.de/" page
  then Ok (Sample.boulderado "12" "8")
  else Ok (Sample.webclimber "40 frei" "width:40%").

Definition utcnow : nat → string := λ k,
  match k with
  | O => "2026-01-01T12:00:00"
  | _ => "2026-01-01T12:00:01"
  end.

Definition sites : list (string * SiteConfig) :=
  [("halle", Sample.site_boulderado);
   ("turm", <[ "type" := "vertical" ]> Sample.site_boulderado);
   ("wand", Sample.site_webclimber)].

End SampleSites.

(** * Properties *)

(** ** The result monad *)

Lemma bind_Ok {A B} (f : A → result B) (r : result A) (b : B) :
  r ≫= f = Ok b ↔ ∃ a, r = Ok a ∧ f a = Ok b.
Proof.
  destruct r as [a|e]; simpl; split.
  - intros H. by exists a.
  - by intros (a' & [= <-] & H).
  - done.
  - by intros (a' & ? & _).
Qed.

(** [int] raises nothing but [ValueError]. *)
Lemma int_Raise s e :
  Py.int s = Raise e → e = ValueError (invalid_literal s).
Proof. unfold Py.int. destruct (Py.int_chars _); congruence. Qed.

Lemma free_slots_of_int tok f :
  Py.int tok = Ok f → free_slots_of tok = Ok f.
Proof. unfold free_slots_of. by intros ->. Qed.

Lemma free_slots_of_not_int tok e :
  Py.int tok = Raise e → free_slots_of tok = Ok (-1).
Proof.
  intros H. unfold free_slots_of. rewrite H.
  by rewrite (int_Raise _ _ H).
Qed.

(** The status text never makes the adapter raise once it has a first
    word. *)
Lemma free_slots_of_total tok : ∃ f, free_slots_of tok = Ok f.
Proof.
  destruct (Py.int tok) as [f|e] eqn:H.
  - exists f. by apply free_slots_of_int.
  - exists (-1). by eapply free_slots_of_not_int.
Qed.

Lemma slots_unknown w :
  slots (-1) w = Ok {| free := 100 - w; active := w |}.
Proof. unfold slots. simpl. do 2 f_equal. lia. Qed.

Lemma slots_known f w :
  f ≠ -1 → w ≠ 0 →
  slots f w = Ok {| free := f; active := f / w * 100 - f |}.
Proof.
  intros Hf Hw. unfold slots, Py.floordiv.
  destruct (Z.eqb_spec f (-1)) as [|_]; [done|].
  destruct (Z.eqb_spec w 0) as [|_]; [done|]. done.
Qed.

Lemma slots_known_zero f :
  f ≠ -1 → slots f 0 = Raise ZeroDivisionError.
Proof.
  intros Hf. unfold slots, Py.floordiv.
  destruct (Z.eqb_spec f (-1)) as [|_]; [done|]. done.
Qed.

Section AdapterFacts.

Variable get : string → result string.
Variable parse : string → result Bs4.Tag.

(** The adapter, once the document, the first word of the status text
    and the width of the bar are known. *)
Lemma crawl_webclimber_eq site_config soup tok f w :
  webclimber_soup get parse site_config = Ok soup →
  free_slots_str soup = Ok tok →
  free_slots_of tok = Ok f →
  bar_width soup = Ok w →
  crawl_webclimber get parse site_config = slots f w.
Proof.
  intros Hsoup Htok Hf Hw.
  unfold crawl_webclimber, webclimber_result.
  rewrite Hsoup. simpl. rewrite Htok. simpl. rewrite Hf. simpl.
  by rewrite Hw.
Qed.

(** A result of the adapter comes from a document with a first status
    word and a bar width. *)
Lemma crawl_webclimber_Ok site_config r :
  crawl_webclimber get parse site_config = Ok r →
  ∃ soup tok f w,
    webclimber_soup get parse site_config = Ok soup
    ∧ free_slots_str soup = Ok tok
    ∧ free_slots_of tok = Ok f
    ∧ bar_width soup = Ok w
    ∧ slots f w = Ok r.
Proof.
  unfold crawl_webclimber, webclimber_result.
  intros (soup & Hsoup & H)%bind_Ok.
  apply bind_Ok in H as (tok & Htok & H).
  apply bind_Ok in H as (f & Hf & H).
  apply bind_Ok in H as (w & Hw & H).
  by exists soup, tok, f, w.
Qed.

(** C1.  What the code does on a bar of width 0: with a known number of free
    slots and a bar of width 0, line 63 divides by zero: the adapter raises
    [ZeroDivisionError] and returns no result. *)
Theorem webclimber_width_zero_raises site_config soup tok f :
  webclimber_soup get parse site_config = Ok soup →
  free_slots_str soup = Ok tok →
  Py.int tok = Ok f →
  f ≠ -1 →
  bar_width soup = Ok 0 →
  crawl_webclimber get parse site_config = Raise ZeroDivisionError.
Proof.
  intros Hsoup Htok Hint Hf Hw.
  rewrite (crawl_webclimber_eq _ _ _ _ _ Hsoup Htok
             (free_slots_of_int _ _ Hint) Hw).
  by apply slots_known_zero.
Qed.

(** C3.  Branch B: when the first word of the status text is an integer
    [f] (other than the marker -1, so that the second branch is the one
    taken) and the bar has the non-zero width [w], the total is
    [f // w * 100] and the adapter returns [free = f] and
    [active = total - f]. *)
Theorem webclimber_branch_B site_config soup tok f w :
  webclimber_soup get parse site_config = Ok soup →
  free_slots_str soup = Ok tok →
  Py.int tok = Ok f →
  f ≠ -1 →
  bar_width soup = Ok w →
  w ≠ 0 →
  let total := f / w * 100 in
  crawl_webclimber get parse site_config
  = Ok {| free := f; active := total - f |}.
Proof.
  intros Hsoup Htok Hint Hf Hw Hw0.
  rewrite (crawl_webclimber_eq _ _ _ _ _ Hsoup Htok
             (free_slots_of_int _ _ Hint) Hw).
  by apply slots_known.
Qed.

(** C4.  Branch A: when the first word of the status text is not an
    integer, [int] raises, the exception is caught, and with a bar of
    width [w] the adapter assumes 100 slots: [free = 100 - w] and
    [active = w]. *)
Theorem webclimber_branch_A site_config soup tok e w :
  webclimber_soup get parse site_config = Ok soup →
  free_slots_str soup = Ok tok →
  Py.int tok = Raise e →
  bar_width soup = Ok w →
  crawl_webclimber get parse site_config
  = Ok {| free := 100 - w; active := w |}.
Proof.
  intros Hsoup Htok Hint Hw.
  rewrite (crawl_webclimber_eq _ _ _ _ _ Hsoup Htok
             (free_slots_of_not_int _ _ Hint) Hw).
  apply slots_unknown.
Qed.

(** C9, as amended.  A first word that reads as the integer -1 is taken
    for "no number": the first branch runs and the result is
    [free = 100 - w], [active = w].  A result of the adapter has
    [free = -1] only in that branch and only for a bar of width 101, so
    never for a width within 0..100. *)
Theorem webclimber_sentinel site_config soup tok w :
  webclimber_soup get parse site_config = Ok soup →
  free_slots_str soup = Ok tok →
  bar_width soup = Ok w →
  (Py.int tok = Ok (-1) →
   crawl_webclimber get parse site_config
   = Ok {| free := 100 - w; active := w |})
  ∧ (∀ r, crawl_webclimber get parse site_config = Ok r →
          free r = -1 → w = 101 ∧ active r = 101).
Proof.
  intros Hsoup Htok Hw. split.
  - intros Hint.
    rewrite (crawl_webclimber_eq _ _ _ _ _ Hsoup Htok
               (free_slots_of_int _ _ Hint) Hw).
    apply slots_unknown.
  - intros r Hr Hfree.
    destruct (free_slots_of_total tok) as [f Hf].
    rewrite (crawl_webclimber_eq _ _ _ _ _ Hsoup Htok Hf Hw) in Hr.
    destruct (decide (f = -1)) as [->|Hne].
    + rewrite slots_unknown in Hr. injection Hr as <-.
      simpl in *. lia.
    + destruct (decide (w = 0)) as [->|Hw0].
      * by rewrite slots_known_zero in Hr.
      * rewrite slots_known in Hr by done. injection Hr as <-.
        simpl in Hfree. done.
Qed.

(** ** The boulderado adapter *)

(** The adapter, once the document is known: both counters, in the order
    of the loop. *)
Lemma crawl_boulderado_eq site_config soup :
  boulderado_soup get parse site_config = Ok soup →
  crawl_boulderado get parse site_config
  = (act ← boulderado_count soup "act";
     free ← boulderado_count soup "free";
     Ok {| free := free; active := act |}).
Proof.
  intros Hsoup. unfold crawl_boulderado, boulderado_result.
  rewrite Hsoup. simpl.
  destruct (boulderado_count soup "act") as [a|e]; [simpl|done].
  destruct (boulderado_count soup "free") as [f|e]; [simpl|done].
  done.
Qed.

Lemma boulderado_count_eq soup count_value div span :
  Bs4.find (Bs4.div_class (count_value +:+ "counter-content")) soup
  = Some div →
  Bs4.find (Bs4.named "span") div = Some span →
  boulderado_count soup count_value = Py.int (Bs4.text span).
Proof.
  intros Hdiv Hspan. unfold boulderado_count.
  rewrite Hdiv. simpl. by rewrite Hspan.
Qed.

(** What reading one counter can raise. *)
Lemma boulderado_count_Raise soup count_value e :
  boulderado_count soup count_value = Raise e →
  e = AttributeError ∨ ∃ s, e = ValueError (invalid_literal s).
Proof.
  unfold boulderado_count.
  destruct (Bs4.find (Bs4.div_class _) soup) as [div|]; simpl;
    [|intros [= <-]; by left].
  destruct (Bs4.find (Bs4.named "span") div) as [span|]; simpl;
    [|intros [= <-]; by left].
  intros H%int_Raise. right. by eexists.
Qed.

(** C5.  When the span below the div of class [actcounter-content] reads
    as the integer [a] and the one below [freecounter-content] as [f]
    (as "12" and "8" do), the adapter returns exactly [active = a] and
    [free = f]. *)
Theorem boulderado_counters_direct site_config soup div_a span_a a
    div_f span_f f :
  boulderado_soup get parse site_config = Ok soup →
  Bs4.find (Bs4.div_class "actcounter-content") soup = Some div_a →
  Bs4.find (Bs4.named "span") div_a = Some span_a →
  Py.int (Bs4.text span_a) = Ok a →
  Bs4.find (Bs4.div_class "freecounter-content") soup = Some div_f →
  Bs4.find (Bs4.named "span") div_f = Some span_f →
  Py.int (Bs4.text span_f) = Ok f →
  crawl_boulderado get parse site_config = Ok {| free := f; active := a |}.
Proof.
  intros Hsoup Hda Hsa Ha Hdf Hsf Hf.
  rewrite (crawl_boulderado_eq _ _ Hsoup).
  rewrite (boulderado_count_eq soup "act" div_a span_a) by done.
  rewrite (boulderado_count_eq soup "free" div_f span_f) by done.
  by rewrite Ha, Hf.
Qed.

(** C7.  When, for one of the two counters, the div of its class is
    missing from the document, or that div has no span, or the text of
    its span is not accepted by [int], the adapter raises
    ([AttributeError] on the missing element, [ValueError] on the text)
    and returns no result. *)
Theorem boulderado_extraction_error site_config soup count_value :
  boulderado_soup get parse site_config = Ok soup →
  count_value = "act" ∨ count_value = "free" →
  Bs4.find (Bs4.div_class (count_value +:+ "counter-content")) soup = None
  ∨ (∃ div,
       Bs4.find (Bs4.div_class (count_value +:+ "counter-content")) soup
       = Some div
       ∧ Bs4.find (Bs4.named "span") div = None)
  ∨ (∃ div span e,
       Bs4.find (Bs4.div_class (count_value +:+ "counter-content")) soup
       = Some div
       ∧ Bs4.find (Bs4.named "span") div = Some span
       ∧ Py.int (Bs4.text span) = Raise e) →
  ∃ e, crawl_boulderado get parse site_config = Raise e
       ∧ (e = AttributeError ∨ ∃ s, e = ValueError (invalid_literal s)).
Proof.
  intros Hsoup Hcv Hbad.
  assert (∃ e, boulderado_count soup count_value = Raise e) as [e He].
  { destruct Hbad as [Hnone|[(div & Hdiv & Hnone)
                            |(div & span & e & Hdiv & Hspan & Hint)]].
    - exists AttributeError. unfold boulderado_count. by rewrite Hnone.
    - exists AttributeError. unfold boulderado_count.
      rewrite Hdiv. simpl. by rewrite Hnone.
    - exists e. by rewrite (boulderado_count_eq _ _ _ _ Hdiv Hspan). }
  rewrite (crawl_boulderado_eq _ _ Hsoup).
  destruct (boulderado_count soup "act") as [a|ea] eqn:Hact; simpl.
  - destruct Hcv as [->| ->]; [congruence|].
    rewrite He. simpl. exists e. split; [done|].
    by eapply boulderado_count_Raise.
  - exists ea. split; [done|]. by eapply boulderado_count_Raise.
Qed.

(** ** The dispatcher *)

(** C6.  For a site whose type is "boulderado" or "webclimber" the
    dispatcher is the adapter of that name; for any other type it raises
    (a [ValueError], the source's exception for a configuration error)
    with a message that contains the type and the name of the site. *)
Theorem crawl_site_dispatch site_name site_config type :
  site_config !! "type" = Some type →
  (type = "boulderado" →
   crawl_site get parse site_name site_config
   = crawl_boulderado get parse site_config)
  ∧ (type = "webclimber" →
     crawl_site get parse site_name site_config
     = crawl_webclimber get parse site_config)
  ∧ (type ≠ "boulderado" → type ≠ "webclimber" →
     crawl_site get parse site_name site_config
     = Raise (ValueError (message
         ("unknown boulder arena type: " +:+ type +:+ " for site "
          +:+ site_name +:+ ".")))).
Proof.
  intros Htype. unfold crawl_site, Py.getitem. rewrite Htype. simpl.
  repeat split.
  - by intros ->.
  - by intros ->.
  - intros H1 H2. by rewrite !bool_decide_eq_false_2.
Qed.

End AdapterFacts.

(** ** The point builder *)

(** C8.  The location tag is the site's [location] when it has one and
    the name of the site otherwise; the area tag is there exactly when the
    site has an [area], with that value, and there is no other tag; the
    measurement is a constant and the fields are the two counts. *)
Theorem create_point_message_spec utcnow site_name site_config data :
  let message := create_point_message utcnow site_name site_config data in
  tags message !! "location"
  = Some (default site_name (site_config !! "location"))
  ∧ tags message !! "area" = site_config !! "area"
  ∧ (∀ k, k ≠ "location" → k ≠ "area" → tags message !! k = None)
  ∧ measurement message = "boulder_center_utilization"
  ∧ fields message !! "free" = Some (free data)
  ∧ fields message !! "active" = Some (active data)
  ∧ time message = utcnow.
Proof.
  unfold create_point_message.
  destruct (site_config !! "area") as [area|] eqn:Harea;
    destruct (site_config !! "location") as [loc|]; simpl;
    repeat split; try done; intros k Hl Ha;
    rewrite ?lookup_union, !lookup_singleton_ne by done; done.
Qed.

(** ** Reading the width of the bar *)

Local Open Scope list_scope.

Lemma list_ascii_of_string_app (s1 s2 : string) :
  list_ascii_of_string (s1 +:+ s2)
  = list_ascii_of_string s1 ++ list_ascii_of_string s2.
Proof. induction s1 as [|c s1 IH]; simpl; [done|by rewrite IH]. Qed.


Lemma isdigit_not_space c : Py.isdigit c = true → Py.isspace c = false.
Proof.
  unfold Py.isdigit, Py.isspace. simpl. intros H.
  apply andb_true_iff in H as [H1%N.leb_le H2%N.leb_le].
  repeat (apply orb_false_iff; split);
    rewrite ?andb_false_iff, ?N.leb_gt, ?N.eqb_neq; lia.
Qed.


Lemma digit_value_range c : Py.isdigit c = true → 0 ≤ Py.digit_value c < 10.
Proof.
  unfold Py.isdigit, Py.digit_value. simpl. intros H.
  apply andb_true_iff in H as [H1%N.leb_le H2%N.leb_le]. lia.
Qed.

Lemma lstrip_chars_snoc l c :
  Py.isspace c = false →
  Py.lstrip_chars (l ++ [c]) = Py.lstrip_chars l ++ [c].
Proof.
  intros Hc. induction l as [|x l IH]; simpl.
  - by rewrite Hc.
  - by destruct (Py.isspace x).
Qed.

Lemma lstrip_chars_idemp l :
  Py.lstrip_chars (Py.lstrip_chars l) = Py.lstrip_chars l.
Proof.
  induction l as [|x l IH]; simpl; [done|].
  destruct (Py.isspace x) eqn:Hx; [done|]. simpl. by rewrite Hx.
Qed.

Lemma rstrip_chars_snoc l c :
  Py.isspace c = false → Py.rstrip_chars (l ++ [c]) = l ++ [c].
Proof.
  intros Hc. unfold Py.rstrip_chars. rewrite rev_app_distr. simpl.
  rewrite Hc. simpl. by rewrite rev_involutive.
Qed.

Lemma drop_last_chars_snoc l c : Py.drop_last_chars (l ++ [c]) = l.
Proof.
  unfold Py.drop_last_chars. rewrite length_app. simpl.
  replace (length l + 1 - 1)%nat with (length l) by lia.
  by rewrite take_app_length.
Qed.

(** ** The argument of [int] *)

Lemma int_isspace_isspace c :
  Py.int_isspace c = true → Py.isspace c = true.
Proof.
  unfold Py.int_isspace, Py.isspace. simpl.
  generalize (N_of_ascii c). intros n.
  rewrite !orb_true_iff, !andb_true_iff, !N.leb_le, !N.eqb_eq. lia.
Qed.


Lemma int_lstrip_chars_snoc l c :
  Py.int_isspace c = false →
  Py.int_lstrip_chars (l ++ [c]) = Py.int_lstrip_chars l ++ [c].
Proof.
  intros Hc. induction l as [|x l IH]; simpl.
  - by rewrite Hc.
  - by destruct (Py.int_isspace x).
Qed.

Lemma int_lstrip_chars_idemp l :
  Py.int_lstrip_chars (Py.int_lstrip_chars l) = Py.int_lstrip_chars l.
Proof.
  induction l as [|x l IH]; simpl; [done|].
  destruct (Py.int_isspace x) eqn:Hx; [done|]. simpl. by rewrite Hx.
Qed.

Lemma int_lstrip_chars_head l c t :
  Py.int_lstrip_chars l = c :: t → Py.int_isspace c = false.
Proof.
  induction l as [|x l IH]; simpl; [done|].
  destruct (Py.int_isspace x) eqn:Hx; [done|]. by intros [= <- _].
Qed.

Lemma int_lstrip_chars_elem x l :
  x ∈ Py.int_lstrip_chars l → x ∈ l.
Proof.
  induction l as [|y l IH]; simpl; [done|].
  destruct (Py.int_isspace y); [|done].
  intros H. apply elem_of_cons. right. by apply IH.
Qed.

Lemma int_strip_chars_elem x l :
  x ∈ Py.int_strip_chars l → x ∈ l.
Proof.
  unfold Py.int_strip_chars. intros H.
  apply list_elem_of_In, in_rev, list_elem_of_In in H.
  apply int_lstrip_chars_elem in H.
  apply list_elem_of_In, in_rev, list_elem_of_In in H.
  by apply int_lstrip_chars_elem.
Qed.

(** What is left of a text that starts with a word starts with it. *)
Lemma int_strip_chars_head l c t :
  Py.int_lstrip_chars l = c :: t →
  ∃ t', Py.int_strip_chars l = c :: t'.
Proof.
  intros Hl. unfold Py.int_strip_chars. rewrite Hl. simpl.
  rewrite int_lstrip_chars_snoc by (by eapply int_lstrip_chars_head).
  rewrite rev_app_distr. simpl. by eexists.
Qed.

(** Stripping as [str.strip] does removes at least what [int] skips. *)
Lemma lstrip_chars_int_lstrip l :
  Py.lstrip_chars l = Py.lstrip_chars (Py.int_lstrip_chars l).
Proof.
  induction l as [|x l IH]; [done|]. simpl.
  destruct (Py.int_isspace x) eqn:Hx; [|done].
  by rewrite (int_isspace_isspace x Hx).
Qed.

Lemma signed_value_head c t n :
  Py.signed_value (c :: t) = Some n →
  c = "-"%char ∨ c = "+"%char ∨ Py.isdigit c = true.
Proof.
  unfold Py.signed_value.
  case_bool_decide; [by left|]. case_bool_decide; [right; by left|].
  simpl. destruct (Py.isdigit c); [intros _; right; by right|].
  by case_bool_decide.
Qed.

Lemma int_chars_Some l n :
  Py.int_chars l = Some n
  ↔ (Py.count_digits (Py.int_strip_chars l) ≤ Py.max_str_digits)%nat
    ∧ Py.signed_value (Py.int_strip_chars l) = Some n.
Proof.
  unfold Py.int_chars. cbv zeta.
  destruct (Nat.ltb_spec Py.max_str_digits
              (Py.count_digits (Py.int_strip_chars l))); split.
  - done.
  - intros [? _]. lia.
  - intros Hn. split; [lia|done].
  - by intros [_ Hn].
Qed.

(** Where [int] reads a number, [str.strip] on the left of the text
    leaves it the same number. *)
Lemma int_chars_lstrip l n :
  Py.int_chars l = Some n → Py.int_chars (Py.lstrip_chars l) = Some n.
Proof.
  intros Hn.
  assert (Py.lstrip_chars l = Py.int_lstrip_chars l) as ->.
  { rewrite lstrip_chars_int_lstrip.
    destruct (Py.int_lstrip_chars l) as [|c t] eqn:Hl; [done|].
    destruct (int_strip_chars_head l c t Hl) as [t' Ht'].
    apply int_chars_Some in Hn as [_ Hn]. rewrite Ht' in Hn.
    assert (Py.isspace c = false) as Hc.
    { destruct (signed_value_head c t' n Hn) as [->|[->|Hd]];
        [done|done|by apply isdigit_not_space]. }
    simpl. by rewrite Hc. }
  apply int_chars_Some. apply int_chars_Some in Hn.
  unfold Py.int_strip_chars in *. by rewrite int_lstrip_chars_idemp.
Qed.







Lemma digits_value_nonneg l acc prev v :
  0 ≤ acc → Py.digits_value acc prev l = Some v → 0 ≤ v.
Proof.
  revert acc prev. induction l as [|c l IH]; intros acc prev Hacc; simpl.
  - destruct prev; [by intros [= <-]|done].
  - destruct (Py.isdigit c) eqn:Hc.
    + apply IH. pose proof (digit_value_range c Hc). lia.
    + destruct (bool_decide (c = "_"%char)); [|done].
      destruct prev; [by apply IH|done].
Qed.

(** A number written without a minus sign is not negative. *)
Lemma int_chars_nonneg l n :
  Py.int_chars l = Some n → "-"%char ∉ l → 0 ≤ n.
Proof.
  intros [_ Hn]%int_chars_Some Hminus.
  destruct (Py.int_strip_chars l) as [|c t] eqn:Hl; [done|].
  assert (c ≠ "-"%char) as Hc.
  { intros ->. apply Hminus, int_strip_chars_elem. rewrite Hl. by left. }
  unfold Py.signed_value in Hn.
  rewrite (bool_decide_eq_false_2 _ Hc) in Hn.
  case_bool_decide; by eapply digits_value_nonneg.
Qed.


Lemma int_Ok s n :
  Py.int s = Ok n ↔ Py.int_chars (list_ascii_of_string s) = Some n.
Proof.
  unfold Py.int. destruct (Py.int_chars _); split; congruence.
Qed.

Lemma int_nonneg s n :
  Py.int s = Ok n → unsigned s → 0 ≤ n.
Proof. intros Hn%int_Ok Hs. by eapply int_chars_nonneg. Qed.

Lemma width_int_chars width :
  width_int width
  = Py.int (string_of_list_ascii
      (Py.drop_last_chars (Py.strip_chars (list_ascii_of_string width)))).
Proof.
  unfold width_int, Py.drop_last, Py.strip.
  by rewrite list_ascii_of_string_of_list_ascii.
Qed.


(** Whitespace before the integer does not count either. *)
Lemma width_int_percent body n :
  Py.int body = Ok n → width_int (body +:+ "%") = Ok n.
Proof.
  intros Hint%int_Ok.
  rewrite width_int_chars, list_ascii_of_string_app. simpl.
  unfold Py.strip_chars.
  rewrite lstrip_chars_snoc, rstrip_chars_snoc, drop_last_chars_snoc by done.
  apply int_Ok.
  rewrite list_ascii_of_string_of_list_ascii. by apply int_chars_lstrip.
Qed.





(** ** What [int] rejects *)

Lemma lstrip_chars_keeps c l :
  Py.isspace c = false → c ∈ l → c ∈ Py.lstrip_chars l.
Proof.
  intros Hc. induction l as [|x l IH]; simpl; [done|].
  destruct (Py.isspace x) eqn:Hx; [|done].
  intros [->|Hin]%elem_of_cons; [congruence|by apply IH].
Qed.

Lemma strip_chars_keeps c l :
  Py.isspace c = false → c ∈ l → c ∈ Py.strip_chars l.
Proof.
  intros Hc Hin. unfold Py.strip_chars, Py.rstrip_chars.
  apply list_elem_of_In. rewrite <-in_rev. apply list_elem_of_In.
  apply lstrip_chars_keeps; [done|].
  apply list_elem_of_In. rewrite <-in_rev. apply list_elem_of_In.
  by apply lstrip_chars_keeps.
Qed.

Lemma int_lstrip_chars_keeps c l :
  Py.int_isspace c = false → c ∈ l → c ∈ Py.int_lstrip_chars l.
Proof.
  intros Hc. induction l as [|x l IH]; simpl; [done|].
  destruct (Py.int_isspace x) eqn:Hx; [|done].
  intros [->|Hin]%elem_of_cons; [congruence|by apply IH].
Qed.

Lemma int_strip_chars_keeps c l :
  Py.int_isspace c = false → c ∈ l → c ∈ Py.int_strip_chars l.
Proof.
  intros Hc Hin. unfold Py.int_strip_chars.
  apply list_elem_of_In. rewrite <-in_rev. apply list_elem_of_In.
  apply int_lstrip_chars_keeps; [done|].
  apply list_elem_of_In. rewrite <-in_rev. apply list_elem_of_In.
  by apply int_lstrip_chars_keeps.
Qed.

Lemma digits_value_rejects c l acc prev :
  Py.isdigit c = false → c ≠ "_"%char → c ∈ l →
  Py.digits_value acc prev l = None.
Proof.
  intros Hd Hu Hin. revert acc prev.
  induction l as [|x l IH]; intros acc prev; [by apply elem_of_nil in Hin|].
  simpl. apply elem_of_cons in Hin as [<-|Hin].
  - by rewrite Hd, bool_decide_eq_false_2.
  - destruct (Py.isdigit x); [by apply IH|].
    destruct (bool_decide (x = "_"%char)); [|done].
    destruct prev; [by apply IH|done].
Qed.

(** A text with a character that is neither a digit, a sign, an
    underscore nor whitespace is not an integer for [int]. *)
Lemma int_rejects_non_numeric s c :
  c ∈ list_ascii_of_string s →
  Py.isdigit c = false → Py.isspace c = false →
  c ≠ "-"%char → c ≠ "+"%char → c ≠ "_"%char →
  Py.int s = Raise (ValueError (invalid_literal s)).
Proof.
  intros Hin Hd Hs Hm Hp Hu. unfold Py.int.
  destruct (Py.int_chars _) as [n|] eqn:Hn; [exfalso|done].
  apply int_chars_Some in Hn as [_ Hn]. revert Hn.
  assert (Py.int_isspace c = false) as Hs'.
  { destruct (Py.int_isspace c) eqn:Hc; [|done].
    apply int_isspace_isspace in Hc. congruence. }
  apply (int_strip_chars_keeps _ _ Hs') in Hin.
  destruct (Py.int_strip_chars _) as [|x l]; [by apply elem_of_nil in Hin|].
  unfold Py.signed_value.
  case_bool_decide as Hx1; [|case_bool_decide as Hx2].
  - subst x. apply elem_of_cons in Hin as [?|Hin]; [done|].
    by rewrite (digits_value_rejects c l).
  - subst x. apply elem_of_cons in Hin as [?|Hin]; [done|].
    by rewrite (digits_value_rejects c l).
  - by rewrite (digits_value_rejects c (x :: l)).
Qed.

(** ** Non-negative counts *)

Lemma boulderado_count_via_string soup count_value :
  boulderado_count soup count_value
  = (count_string ← boulderado_count_string soup count_value;
     Py.int count_string).
Proof.
  unfold boulderado_count, boulderado_count_string.
  destruct (Bs4.find (Bs4.div_class _) soup) as [div|]; [simpl|done].
  by destruct (Bs4.find (Bs4.named "span") div).
Qed.

Lemma boulderado_count_nonneg soup count_value n :
  boulderado_in_range soup →
  count_value = "act" ∨ count_value = "free" →
  boulderado_count soup count_value = Ok n →
  0 ≤ n.
Proof.
  intros Hrange Hcv. rewrite boulderado_count_via_string.
  intros (count_string & Hs & Hn)%bind_Ok.
  eapply int_nonneg; [done|]. by eapply Hrange.
Qed.

Lemma slots_known_nonneg f w r :
  0 ≤ f → slots f w = Ok r →
  0 ≤ free r ∧ (0 ≤ active r ↔ f ≤ f / w * 100).
Proof.
  intros Hf Hr. destruct (decide (w = 0)) as [->|Hw].
  - rewrite slots_known_zero in Hr by lia. done.
  - rewrite slots_known in Hr by lia. injection Hr as <-. simpl. lia.
Qed.

(** C2, as amended.  A result of the boulderado adapter has [free ≥ 0]
    and [active ≥ 0] when neither counter is written with a minus sign.
    A result of the webclimber adapter, when the first word of the status
    text is written without a minus sign and the bar has a width within
    0..100, has [free ≥ 0]; its [active] is not negative exactly when the
    status text gives no number, or gives free slots that are not more
    than the total [free_slots // bar_width * 100] of line 63. *)
Theorem adapters_nonneg_in_range get parse site_config soup r :
  (boulderado_soup get parse site_config = Ok soup
   ∧ boulderado_in_range soup
   ∧ crawl_boulderado get parse site_config = Ok r →
   0 ≤ free r ∧ 0 ≤ active r)
  ∧ (webclimber_soup get parse site_config = Ok soup
     ∧ webclimber_in_range soup
     ∧ crawl_webclimber get parse site_config = Ok r →
     0 ≤ free r ∧ (0 ≤ active r ↔ total_covers_free soup)).
Proof.
  split.
  - intros (Hsoup & Hrange & Hr).
    rewrite (crawl_boulderado_eq _ _ _ _ Hsoup) in Hr.
    apply bind_Ok in Hr as (a & Ha & Hr).
    apply bind_Ok in Hr as (f & Hf & [= <-]). simpl. split.
    + eapply boulderado_count_nonneg; [done|by right|done].
    + eapply boulderado_count_nonneg; [done|by left|done].
  - intros (Hsoup & (tok & w & Htok & Htok0 & Hw & Hw100) & Hr).
    destruct (Py.int tok) as [f|e] eqn:Hint.
    + rewrite (crawl_webclimber_eq _ _ _ _ _ _ _ Hsoup Htok
                 (free_slots_of_int _ _ Hint) Hw) in Hr.
      pose proof (int_nonneg _ _ Hint Htok0) as Hf.
      destruct (slots_known_nonneg f w r Hf Hr) as [Hfree Hactive].
      split; [done|]. rewrite Hactive. unfold total_covers_free. split.
      * intros Hle tok' f' w' Htok' Hint' Hw'.
        rewrite Htok in Htok'. injection Htok' as <-.
        rewrite Hint in Hint'. injection Hint' as <-.
        rewrite Hw in Hw'. by injection Hw' as <-.
      * intros Hcover. by apply (Hcover tok).
    + rewrite (crawl_webclimber_eq _ _ _ _ _ _ _ Hsoup Htok
                 (free_slots_of_not_int _ _ Hint) Hw) in Hr.
      rewrite slots_unknown in Hr. injection Hr as <-. simpl.
      split; [lia|]. split; [|lia].
      intros _ tok' f' w' Htok' Hint' _.
      rewrite Htok in Htok'. injection Htok' as <-. congruence.
Qed.

(** ** The adapters on the sample documents *)

(** The built-ins on small inputs. *)
Example int_padded : Py.int " 12 " = Ok 12.
Proof. reflexivity. Qed.

Example int_underscore : Py.int "1_000" = Ok 1000.
Proof. reflexivity. Qed.

(** The separator 28 is whitespace for [str.strip] and not for [int]. *)
Example int_separator :
  Py.strip (String "028"%char "5") = "5"
  ∧ Py.int (String "028"%char "5")
    = Raise (ValueError (invalid_literal (String "028"%char "5"))).
Proof. split; reflexivity. Qed.

(** [int] converts 4300 digits and not one more. *)
Example int_digit_limit :
  (∃ n, Py.int (Sample.ones 4300) = Ok n)
  ∧ Py.int (Sample.ones 4301)
    = Raise (ValueError (invalid_literal (Sample.ones 4301))).
Proof.
  split.
  - destruct (Py.int (Sample.ones 4300)) as [n|e] eqn:Hn; [by exists n|].
    vm_compute in Hn. discriminate.
  - vm_compute. reflexivity.
Qed.

Example int_two_underscores :
  Py.int "1__0" = Raise (ValueError (invalid_literal "1__0")).
Proof. reflexivity. Qed.

Example split_semicolon : Py.split ";" "a;b;" = ["a"; "b"; ""].
Proof. reflexivity. Qed.

Example split_words : Py.split_ws "  40 frei " = ["40"; "frei"].
Proof. reflexivity. Qed.

(** A style that ends in a semicolon has an empty last declaration, which
    [dict] refuses. *)
Example bar_width_trailing_semicolon :
  bar_width (Sample.webclimber "40 frei" "width:40%;")
  = Raise (ValueError (dict_update_length 1 1)).
Proof. vm_compute. reflexivity. Qed.

(** The free slots are divided before they are multiplied: 5 free slots
    and a bar of 90% give a total of 0. *)
Example webclimber_truncated_total :
  crawl_webclimber Sample.get
    (Sample.parse (Sample.webclimber "5 frei" "width:90%"))
    Sample.site_webclimber
  = Ok {| free := 5; active := -5 |}.
Proof. vm_compute. reflexivity. Qed.

(** The counters of boulderado are passed on as they are. *)
Example boulderado_negative_counter :
  crawl_boulderado Sample.get
    (Sample.parse (Sample.boulderado "-3" "8")) Sample.site_boulderado
  = Ok {| free := 8; active := -3 |}.
Proof. vm_compute. reflexivity. Qed.

(** C1: "17 frei" and [width:0%]. *)
Lemma webclimber_width_zero_raises_witness :
  crawl_webclimber Sample.get
    (Sample.parse (Sample.webclimber "17 frei" "width:0%"))
    Sample.site_webclimber
  = Raise ZeroDivisionError.
Proof.
  apply (webclimber_width_zero_raises Sample.get
           (Sample.parse (Sample.webclimber "17 frei" "width:0%"))
           Sample.site_webclimber
           (Sample.webclimber "17 frei" "width:0%") "17" 17).
  - reflexivity.
  - vm_compute. reflexivity.
  - reflexivity.
  - lia.
  - vm_compute. reflexivity.
Defined.

(** C2: 5 free slots and a bar of 90%, both in range, give a negative
    number of active slots. *)
Lemma adapters_negative_output :
  ∃ r,
    crawl_webclimber Sample.get
      (Sample.parse (Sample.webclimber "5 frei" "width:90%"))
      Sample.site_webclimber
    = Ok r
    ∧ r = {| free := 5; active := -5 |}
    ∧ ¬ (0 ≤ free r ∧ 0 ≤ active r).
Proof.
  exists {| free := 5; active := -5 |}. split; [|split].
  - vm_compute. reflexivity.
  - reflexivity.
  - simpl. lia.
Qed.

(** C2: documents in range, one of each vendor. *)
Lemma adapters_nonneg_in_range_witness :
  (0 ≤ free {| free := 8; active := 12 |}
   ∧ 0 ≤ active {| free := 8; active := 12 |})
  ∧ (0 ≤ free {| free := 95; active := 5 |}
     ∧ (0 ≤ active {| free := 95; active := 5 |}
        ↔ total_covers_free (Sample.webclimber "95 frei" "width:90%"))).
Proof.
  split.
  - apply (adapters_nonneg_in_range Sample.get
             (Sample.parse (Sample.boulderado "12" "8"))
             Sample.site_boulderado (Sample.boulderado "12" "8")).
    split; [reflexivity|]. split; [|vm_compute; reflexivity].
    intros count_value count_string [->| ->] H;
      vm_compute in H; injection H as <-;
      unfold unsigned; simpl; rewrite !not_elem_of_cons;
      repeat split; try done; apply not_elem_of_nil.
  - apply (adapters_nonneg_in_range Sample.get
             (Sample.parse (Sample.webclimber "95 frei" "width:90%"))
             Sample.site_webclimber
             (Sample.webclimber "95 frei" "width:90%")).
    split; [reflexivity|]. split; [|vm_compute; reflexivity].
    exists "95", 90. split; [vm_compute; reflexivity|].
    split; [|split; [vm_compute; reflexivity|lia]].
    unfold unsigned. simpl. rewrite !not_elem_of_cons.
    repeat split; try done. apply not_elem_of_nil.
Defined.

(** C3: "40 frei" and [width:40%] give a total of 100. *)
Lemma webclimber_branch_B_witness :
  crawl_webclimber Sample.get
    (Sample.parse (Sample.webclimber "40 frei" "width:40%"))
    Sample.site_webclimber
  = Ok {| free := 40; active := 60 |}.
Proof.
  apply (webclimber_branch_B Sample.get
           (Sample.parse (Sample.webclimber "40 frei" "width:40%"))
           Sample.site_webclimber
           (Sample.webclimber "40 frei" "width:40%") "40" 40 40).
  - reflexivity.
  - vm_compute. reflexivity.
  - reflexivity.
  - lia.
  - vm_compute. reflexivity.
  - lia.
Defined.

(** C4: a status text without a number and [width:35%]. *)
Lemma webclimber_branch_A_witness :
  crawl_webclimber Sample.get
    (Sample.parse (Sample.webclimber "Auslastung hoch" "width:35%"))
    Sample.site_webclimber
  = Ok {| free := 65; active := 35 |}.
Proof.
  apply (webclimber_branch_A Sample.get
           (Sample.parse (Sample.webclimber "Auslastung hoch" "width:35%"))
           Sample.site_webclimber
           (Sample.webclimber "Auslastung hoch" "width:35%") "Auslastung"
           (ValueError (invalid_literal "Auslastung")) 35).
  - reflexivity.
  - vm_compute. reflexivity.
  - reflexivity.
  - vm_compute. reflexivity.
Defined.

(** C5: the counters "12" and "8". *)
Lemma boulderado_counters_direct_witness :
  crawl_boulderado Sample.get
    (Sample.parse (Sample.boulderado "12" "8")) Sample.site_boulderado
  = Ok {| free := 8; active := 12 |}.
Proof.
  apply (boulderado_counters_direct Sample.get
           (Sample.parse (Sample.boulderado "12" "8")) Sample.site_boulderado
           (Sample.boulderado "12" "8")
           (Bs4.mkTag "div" {[ "class" := "actcounter-content" ]}
              [Bs4.Element "span" ∅ [Bs4.NavigableString "12"]])
           (Bs4.mkTag "span" ∅ [Bs4.NavigableString "12"])
           12
           (Bs4.mkTag "div" {[ "class" := "freecounter-content" ]}
              [Bs4.Element "span" ∅ [Bs4.NavigableString "8"]])
           (Bs4.mkTag "span" ∅ [Bs4.NavigableString "8"])
           8).
  - reflexivity.
  - vm_compute. reflexivity.
  - vm_compute. reflexivity.
  - reflexivity.
  - vm_compute. reflexivity.
  - vm_compute. reflexivity.
  - reflexivity.
Defined.

(** C6: the three cases of the dispatcher, on a site named "halle". *)
Lemma crawl_site_dispatch_witness :
  crawl_site Sample.get (Sample.parse (Sample.boulderado "12" "8"))
    "halle" Sample.site_boulderado
  = Ok {| free := 8; active := 12 |}
  ∧ crawl_site Sample.get
      (Sample.parse (Sample.webclimber "40 frei" "width:40%"))
      "halle" Sample.site_webclimber
    = Ok {| free := 40; active := 60 |}
  ∧ crawl_site Sample.get (Sample.parse (Sample.boulderado "12" "8"))
      "halle" (<[ "type" := "vertical" ]> Sample.site_boulderado)
    = Raise (ValueError (message
        "unknown boulder arena type: vertical for site halle.")).
Proof.
  split; [|split].
  - rewrite (proj1 (crawl_site_dispatch Sample.get
               (Sample.parse (Sample.boulderado "12" "8"))
               "halle" Sample.site_boulderado "boulderado" eq_refl) eq_refl).
    vm_compute. reflexivity.
  - rewrite (proj1 (proj2 (crawl_site_dispatch Sample.get
               (Sample.parse (Sample.webclimber "40 frei" "width:40%"))
               "halle" Sample.site_webclimber "webclimber" eq_refl)) eq_refl).
    vm_compute. reflexivity.
  - apply (crawl_site_dispatch Sample.get
             (Sample.parse (Sample.boulderado "12" "8"))
             "halle" (<[ "type" := "vertical" ]> Sample.site_boulderado)
             "vertical").
    + vm_compute. reflexivity.
    + discriminate.
    + discriminate.
Defined.

(** C7: a document without the free counter, and one whose active
    counter reads "n/a". *)
Lemma boulderado_extraction_error_witness :
  (∃ e,
     crawl_boulderado Sample.get
       (Sample.parse (Sample.document [Sample.counter "act" "12"]))
       Sample.site_boulderado
     = Raise e
     ∧ (e = AttributeError ∨ ∃ s, e = ValueError (invalid_literal s)))
  ∧ (∃ e,
       crawl_boulderado Sample.get
         (Sample.parse (Sample.boulderado "n/a" "8")) Sample.site_boulderado
       = Raise e
       ∧ (e = AttributeError ∨ ∃ s, e = ValueError (invalid_literal s))).
Proof.
  split.
  - apply (boulderado_extraction_error Sample.get
             (Sample.parse (Sample.document [Sample.counter "act" "12"]))
             Sample.site_boulderado
             (Sample.document [Sample.counter "act" "12"]) "free").
    + reflexivity.
    + right. reflexivity.
    + left. vm_compute. reflexivity.
  - apply (boulderado_extraction_error Sample.get
             (Sample.parse (Sample.boulderado "n/a" "8"))
             Sample.site_boulderado (Sample.boulderado "n/a" "8") "act").
    + reflexivity.
    + left. reflexivity.
    + right. right.
      exists (Bs4.mkTag "div" {[ "class" := "actcounter-content" ]}
                [Bs4.Element "span" ∅ [Bs4.NavigableString "n/a"]]),
             (Bs4.mkTag "span" ∅ [Bs4.NavigableString "n/a"]),
             (ValueError (invalid_literal "n/a")).
      split; [vm_compute; reflexivity|].
      split; [vm_compute; reflexivity|]. reflexivity.
Defined.

(** C8 on a site with an area and no location. *)
Example create_point_message_sample :
  create_point_message "2026-01-01T12:00:00" "halle" Sample.site_webclimber
    {| free := 40; active := 60 |}
  = {| measurement := "boulder_center_utilization";
       tags := <[ "area" := "boulder" ]> {[ "location" := "halle" ]};
       time := "2026-01-01T12:00:00";
       fields := <[ "free" := 40 ]> {[ "active" := 60 ]} |}.
Proof. vm_compute. reflexivity. Qed.

(** C9: a bar of 101% gives [free = -1], whatever the status text. *)
Lemma webclimber_free_minus_one :
  ∃ r,
    crawl_webclimber Sample.get
      (Sample.parse (Sample.webclimber "-1 frei" "width:101%"))
      Sample.site_webclimber
    = Ok r
    ∧ r = {| free := -1; active := 101 |}
    ∧ free r = -1.
Proof.
  exists {| free := -1; active := 101 |}. split; [|split].
  - vm_compute. reflexivity.
  - reflexivity.
  - reflexivity.
Qed.

(** C9: the status text "-1 frei" and [width:35%]. *)
Lemma webclimber_sentinel_witness :
  crawl_webclimber Sample.get
    (Sample.parse (Sample.webclimber "-1 frei" "width:35%"))
    Sample.site_webclimber
  = Ok {| free := 65; active := 35 |}
  ∧ (∀ r,
       crawl_webclimber Sample.get
         (Sample.parse (Sample.webclimber "-1 frei" "width:35%"))
         Sample.site_webclimber
       = Ok r →
       free r = -1 → 35 = 101 ∧ active r = 101).
Proof.
  destruct (webclimber_sentinel Sample.get
              (Sample.parse (Sample.webclimber "-1 frei" "width:35%"))
              Sample.site_webclimber
              (Sample.webclimber "-1 frei" "width:35%") "-1" 35)
    as [Hbranch Hfree].
  - reflexivity.
  - vm_compute. reflexivity.
  - vm_compute. reflexivity.
  - split; [|exact Hfree]. apply Hbranch. reflexivity.
Defined.



(** The whole adapter on a bar whose width has no "%": 40 free slots and
    a width read as 4. *)
Example webclimber_width_without_percent :
  crawl_webclimber Sample.get
    (Sample.parse (Sample.webclimber "40 frei" "width:40"))
    Sample.site_webclimber
  = Ok {| free := 40; active := 960 |}.
Proof. vm_compute. reflexivity. Qed.

(** * Further properties of [crawl.py] *)

Example main_sample :
  main SampleSites.get SampleSites.parse SampleSites.utcnow SampleSites.sites
  = {| messages :=
         [create_point_message "2026-01-01T12:00:00" "halle"
            Sample.site_boulderado {| free := 8; active := 12 |};
          create_point_message "2026-01-01T12:00:01" "wand"
            Sample.site_webclimber {| free := 40; active := 60 |}];
       output :=
         [crawled "halle" {| free := 8; active := 12 |};
          failed_to_crawl "turm" (ValueError (message
            "unknown boulder arena type: vertical for site turm."));
          crawled "wand" {| free := 40; active := 60 |}];
       utcnow_calls := 2 |}.
Proof. vm_compute. reflexivity. Qed.

(** ** Splitting *)

Lemma split_chars_snoc_sep sep cur l :
  Py.split_chars sep cur (l ++ [sep]) = Py.split_chars sep cur l ++ [[]].
Proof.
  revert cur. induction l as [|c l IH]; intros cur; simpl.
  - by rewrite bool_decide_eq_true_2.
  - case_bool_decide; [by rewrite IH|apply IH].
Qed.

Lemma split_chars_no_sep sep cur l :
  sep ∉ l → Py.split_chars sep cur l = [rev cur ++ l].
Proof.
  revert cur. induction l as [|c l IH]; intros cur Hsep; simpl.
  - by rewrite app_nil_r.
  - apply not_elem_of_cons in Hsep as [Hc Hl].
    rewrite bool_decide_eq_false_2 by done.
    rewrite IH by done. simpl. by rewrite <-app_assoc.
Qed.

Lemma split_chars_at_sep sep cur l1 l2 :
  sep ∉ l1 →
  Py.split_chars sep cur (l1 ++ sep :: l2)
  = (rev cur ++ l1) :: Py.split_chars sep [] l2.
Proof.
  revert cur. induction l1 as [|c l1 IH]; intros cur Hsep; simpl.
  - by rewrite bool_decide_eq_true_2, app_nil_r.
  - apply not_elem_of_cons in Hsep as [Hc Hl].
    rewrite bool_decide_eq_false_2 by done.
    rewrite IH by done. simpl. by rewrite <-app_assoc.
Qed.

Lemma split_snoc_sep sep (s : string) :
  Py.split sep (s +:+ String sep "") = Py.split sep s ++ [""].
Proof.
  unfold Py.split. rewrite list_ascii_of_string_app. simpl.
  by rewrite split_chars_snoc_sep, fmap_app.
Qed.

(** Without whitespace to split at there are no words. *)
Lemma lstrip_chars_spaces l :
  Forall (λ c, Py.isspace c = true) l → Py.lstrip_chars l = [].
Proof. induction 1 as [|c l Hc _ IH]; simpl; [done|by rewrite Hc]. Qed.

Lemma split_ws_strip_spaces s :
  Forall (λ c, Py.isspace c = true) (list_ascii_of_string s) →
  Py.split_ws (Py.strip s) = [].
Proof.
  intros Hs. unfold Py.split_ws, Py.strip, Py.strip_chars.
  by rewrite lstrip_chars_spaces.
Qed.

(** A last item of one element makes [dict] raise, there or earlier. *)
Lemma dict_update_short_last d i items x :
  ∃ j n, Py.dict_update d i (items ++ [[x]])
         = Raise (ValueError (dict_update_length j n)).
Proof.
  revert d i. induction items as [|item items IH]; intros d i; simpl.
  - by eexists _, _.
  - destruct item as [|k [|v [|? ?]]]; try by eexists _, _.
    apply IH.
Qed.

Section MoreAdapterFacts.

Variable get : string → result string.
Variable parse : string → result Bs4.Tag.

(** ** Missing keys and the transport *)

(** X1.  A site without [type] makes the dispatcher raise
    [KeyError "type"]; a webclimber site without [clientid] (the key the
    code reads, in lower case) raises [KeyError "clientid"], and either
    adapter raises [KeyError "token"] on a site without a token.  No
    document is fetched in any of these cases: the transport and the
    parser do not matter. *)
Theorem missing_key_raises site_name site_config :
  (site_config !! "type" = None →
   crawl_site get parse site_name site_config = Raise (KeyError "type"))
  ∧ (site_config !! "clientid" = None →
     crawl_webclimber get parse site_config = Raise (KeyError "clientid"))
  ∧ (is_Some (site_config !! "clientid") →
     site_config !! "token" = None →
     crawl_webclimber get parse site_config = Raise (KeyError "token"))
  ∧ (site_config !! "token" = None →
     crawl_boulderado get parse site_config = Raise (KeyError "token")).
Proof.
  repeat split.
  - intros H. unfold crawl_site, Py.getitem. by rewrite H.
  - intros H. unfold crawl_webclimber, webclimber_soup, Py.getitem.
    by rewrite H.
  - intros [cid Hcid] H.
    unfold crawl_webclimber, webclimber_soup, Py.getitem.
    rewrite Hcid. simpl. by rewrite H.
  - intros H. unfold crawl_boulderado, boulderado_soup, Py.getitem.
    by rewrite H.
Qed.

(** X2.  The boulderado adapter fetches one address, the counter page
    with the token of the site at its end: an exception of the transport
    there, or of the parser on the body fetched there, is the exception
    of the adapter, and the document parsed from that body is the one the
    counters are read from. *)
Theorem boulderado_fetch site_config token :
  site_config !! "token" = Some token →
  let url :=
    "https://www.boulderado.de/boulderadoweb/gym-clientcounter/index.php?mode=get&token="
    +:+ token in
  (∀ e, get url = Raise e →
        crawl_boulderado get parse site_config = Raise e)
  ∧ (∀ page e, get url = Ok page → parse page = Raise e →
        crawl_boulderado get parse site_config = Raise e)
  ∧ (∀ page soup, get url = Ok page → parse page = Ok soup →
        crawl_boulderado get parse site_config = boulderado_result soup).
Proof.
  intros Htoken url.
  unfold crawl_boulderado, boulderado_soup, Py.getitem.
  rewrite Htoken. simpl. fold url.
  split; [intros e He|split; [intros page e Hpage He
                             |intros page soup Hpage Hsoup]].
  - by rewrite He.
  - rewrite Hpage. simpl. by rewrite He.
  - rewrite Hpage. simpl. by rewrite Hsoup.
Qed.

(** X3.  The webclimber adapter fetches one address, the traffic light
    of the client's subdomain with the token as key: an exception of the
    transport there, or of the parser on the body fetched there, is the
    exception of the adapter, and the document parsed from that body is
    the one the slots are read from. *)
Theorem webclimber_fetch site_config clientid token :
  site_config !! "clientid" = Some clientid →
  site_config !! "token" = Some token →
  let url :=
    "https://" +:+ clientid +:+ ".webclimber.de/de/trafficlight?key="
    +:+ token in
  (∀ e, get url = Raise e →
        crawl_webclimber get parse site_config = Raise e)
  ∧ (∀ page e, get url = Ok page → parse page = Raise e →
        crawl_webclimber get parse site_config = Raise e)
  ∧ (∀ page soup, get url = Ok page → parse page = Ok soup →
        crawl_webclimber get parse site_config = webclimber_result soup).
Proof.
  intros Hcid Htoken url.
  unfold crawl_webclimber, webclimber_soup, Py.getitem.
  rewrite Hcid. simpl. rewrite Htoken. simpl. fold url.
  split; [intros e He|split; [intros page e Hpage He
                             |intros page soup Hpage Hsoup]].
  - by rewrite He.
  - rewrite Hpage. simpl. by rewrite He.
  - rewrite Hpage. simpl. by rewrite Hsoup.
Qed.

(** ** The status text and the bar *)

(** X4.  A webclimber document without a div of class [status_text]
    raises [AttributeError], and one whose status text is empty or only
    whitespace has no first word and raises [IndexError]; the bar is not
    looked at. *)
Theorem webclimber_status_missing_or_blank site_config soup :
  webclimber_soup get parse site_config = Ok soup →
  (Bs4.find (Bs4.div_class "status_text") soup = None →
   crawl_webclimber get parse site_config = Raise AttributeError)
  ∧ (∀ status,
       Bs4.find (Bs4.div_class "status_text") soup = Some status →
       Forall (λ c, Py.isspace c = true)
         (list_ascii_of_string (Bs4.text status)) →
       crawl_webclimber get parse site_config = Raise IndexError).
Proof.
  intros Hsoup.
  unfold crawl_webclimber, webclimber_result, free_slots_str.
  rewrite Hsoup. simpl. split.
  - by intros ->.
  - intros status -> Hblank. simpl.
    by rewrite split_ws_strip_spaces.
Qed.

(** X5.  With a first word in the status text, a document without a div
    of class [bar] raises [TypeError] and a bar without a [style]
    attribute raises [KeyError "style"]. *)
Theorem webclimber_bar_missing site_config soup tok :
  webclimber_soup get parse site_config = Ok soup →
  free_slots_str soup = Ok tok →
  (Bs4.find (Bs4.div_class "bar") soup = None →
   crawl_webclimber get parse site_config = Raise TypeError)
  ∧ (∀ bar,
       Bs4.find (Bs4.div_class "bar") soup = Some bar →
       Bs4.attrs bar !! "style" = None →
       crawl_webclimber get parse site_config = Raise (KeyError "style")).
Proof.
  intros Hsoup Htok.
  destruct (free_slots_of_total tok) as [f Hf].
  unfold crawl_webclimber, webclimber_result, bar_width.
  rewrite Hsoup. simpl. rewrite Htok. simpl. rewrite Hf. simpl. split.
  - by intros ->.
  - intros bar -> Hstyle. simpl. unfold Py.getitem. by rewrite Hstyle.
Qed.

(** X6.  A style that ends in a semicolon has an empty last declaration,
    which is not a pair: reading the width raises [ValueError], whatever
    the declarations are. *)
Theorem bar_width_trailing_semicolon_raises soup bar style :
  Bs4.find (Bs4.div_class "bar") soup = Some bar →
  Bs4.attrs bar !! "style" = Some (style +:+ ";") →
  ∃ j n, bar_width soup = Raise (ValueError (dict_update_length j n)).
Proof.
  intros Hbar Hstyle. unfold bar_width, Bs4.subscript, Py.getitem.
  rewrite Hbar, Hstyle. simpl.
  rewrite (split_snoc_sep ";" style), fmap_app. simpl.
  change (Py.split ":" "") with [""].
  destruct (dict_update_short_last ∅ 0 (Py.split ":" <$> Py.split ";" style) "")
    as (j & n & Hd).
  unfold Py.dict. rewrite Hd. by exists j, n.
Qed.

(** X7.  A style that is the one declaration [width:v], where [v] has no
    colon and no semicolon, gives the width read from [v]. *)
Theorem bar_width_single_declaration soup bar v :
  Bs4.find (Bs4.div_class "bar") soup = Some bar →
  Bs4.attrs bar !! "style" = Some ("width:" +:+ v) →
  ";"%char ∉ list_ascii_of_string v →
  ":"%char ∉ list_ascii_of_string v →
  bar_width soup = width_int v.
Proof.
  intros Hbar Hstyle Hsemi Hcolon. unfold bar_width, Bs4.subscript, Py.getitem.
  rewrite Hbar, Hstyle. simpl.
  assert (Py.split ";" ("width:" +:+ v) = ["width:" +:+ v]) as ->.
  { unfold Py.split. rewrite split_chars_no_sep.
    - simpl. by rewrite string_of_list_ascii_of_string.
    - rewrite list_ascii_of_string_app. simpl.
      rewrite !not_elem_of_cons. by repeat split. }
  cbn [fmap list_fmap].
  assert (Py.split ":" ("width:" +:+ v) = ["width"; v]) as ->.
  { unfold Py.split. rewrite list_ascii_of_string_app.
    change (list_ascii_of_string "width:")
      with (list_ascii_of_string "width" ++ [":"%char]).
    rewrite <-app_assoc. simpl app at 2.
    rewrite split_chars_at_sep.
    - rewrite split_chars_no_sep by done. simpl.
      by rewrite string_of_list_ascii_of_string.
    - simpl. rewrite !not_elem_of_cons. repeat split; try done.
      apply not_elem_of_nil. }
  simpl. unfold Py.dict. simpl. by rewrite lookup_insert_eq.
Qed.

End MoreAdapterFacts.

(** ** The capacity the webclimber adapter reconstructs *)

Lemma slots_total f w r :
  slots f w = Ok r → (100 | free r + active r).
Proof.
  intros Hr. destruct (decide (f = -1)) as [->|Hf].
  - rewrite slots_unknown in Hr. injection Hr as <-. simpl.
    exists 1. lia.
  - destruct (decide (w = 0)) as [->|Hw].
    + by rewrite slots_known_zero in Hr.
    + rewrite slots_known in Hr by done. injection Hr as <-. simpl.
      exists (f / w). lia.
Qed.

(** X8.  In every result of the webclimber adapter the free and the
    active slots add up to a multiple of 100: the total is 100 in the
    first branch and a whole number of hundreds in the second. *)
Theorem webclimber_total_hundreds get parse site_config r :
  crawl_webclimber get parse site_config = Ok r →
  (100 | free r + active r).
Proof.
  intros (soup & tok & f & w & _ & _ & _ & _ & Hr)%crawl_webclimber_Ok.
  by eapply slots_total.
Qed.

(** X9.  The free slots are divided by the width before they are
    multiplied by 100: when the status text gives fewer free slots than
    the width of the bar, the total is 0 and the active slots are the
    free slots negated. *)
Theorem webclimber_fewer_slots_than_width get parse site_config soup tok f w :
  webclimber_soup get parse site_config = Ok soup →
  free_slots_str soup = Ok tok →
  Py.int tok = Ok f →
  bar_width soup = Ok w →
  0 ≤ f < w →
  crawl_webclimber get parse site_config = Ok {| free := f; active := - f |}.
Proof.
  intros Hsoup Htok Hint Hw Hf.
  rewrite (crawl_webclimber_eq _ _ _ _ _ _ _ Hsoup Htok
             (free_slots_of_int _ _ Hint) Hw).
  rewrite slots_known by lia. rewrite Z.div_small by lia.
  do 2 f_equal.
Qed.

(** ** When the adapters return and what they raise *)

Lemma dict_update_Raise d i items e :
  Py.dict_update d i items = Raise e →
  ∃ j n, e = ValueError (dict_update_length j n).
Proof.
  revert d i. induction items as [|item items IH]; intros d i; simpl.
  - done.
  - destruct item as [|k [|v [|? ?]]];
      try (intros [= <-]; by eexists _, _).
    apply IH.
Qed.

Lemma getitem_Raise {V} (d : gmap string V) k e :
  Py.getitem d k = Raise e → e = KeyError k.
Proof. unfold Py.getitem. destruct (d !! k); congruence. Qed.

Lemma bar_width_Raise soup e :
  bar_width soup = Raise e →
  e = TypeError ∨ e = KeyError "style" ∨ e = KeyError "width"
  ∨ (∃ j n, e = ValueError (dict_update_length j n))
  ∨ (∃ s, e = ValueError (invalid_literal s)).
Proof.
  unfold bar_width, Bs4.subscript.
  destruct (Bs4.find _ soup) as [bar|]; [|intros [= <-]; by left].
  destruct (Py.getitem (Bs4.attrs bar) "style") as [style|e0] eqn:Hstyle;
    simpl; [|intros [= <-]; apply getitem_Raise in Hstyle; right; by left].
  destruct (Py.dict _) as [style_attrs|e'] eqn:Hdict; simpl.
  - destruct (Py.getitem style_attrs "width") as [width|e1] eqn:Hwidth;
      simpl; [|intros [= <-]; apply getitem_Raise in Hwidth;
               right; right; by left].
    intros H%int_Raise. do 4 right. by eexists.
  - intros [= <-]. apply dict_update_Raise in Hdict. by do 3 right; left.
Qed.

Lemma free_slots_str_Raise soup e :
  free_slots_str soup = Raise e → e = AttributeError ∨ e = IndexError.
Proof.
  unfold free_slots_str.
  destruct (Bs4.find _ soup) as [status|]; simpl; [|intros [= <-]; by left].
  destruct (Py.split_ws _); simpl; [|done]. intros [= <-]. by right.
Qed.

Lemma slots_Raise f w e : slots f w = Raise e → e = ZeroDivisionError.
Proof.
  unfold slots, Py.floordiv.
  destruct (f =? -1); [done|]. destruct (w =? 0); [|done].
  by intros [= <-].
Qed.

(** X10.  The boulderado adapter returns a result exactly when its
    document is fetched and both counters are read, and the result then
    carries the two counters as read. *)
Theorem crawl_boulderado_Ok_iff get parse site_config r :
  crawl_boulderado get parse site_config = Ok r
  ↔ ∃ soup,
      boulderado_soup get parse site_config = Ok soup
      ∧ boulderado_count soup "act" = Ok (active r)
      ∧ boulderado_count soup "free" = Ok (free r).
Proof.
  split.
  - intros Hr.
    destruct (boulderado_soup get parse site_config) as [soup|e] eqn:Hsoup.
    + exists soup. split; [done|].
      rewrite (crawl_boulderado_eq _ _ _ _ Hsoup) in Hr.
      destruct (boulderado_count soup "act") as [a|]; [simpl in Hr|done].
      destruct (boulderado_count soup "free") as [f|]; [simpl in Hr|done].
      by injection Hr as <-.
    + unfold crawl_boulderado in Hr. by rewrite Hsoup in Hr.
  - intros (soup & Hsoup & Ha & Hf).
    rewrite (crawl_boulderado_eq _ _ _ _ Hsoup), Ha, Hf. simpl.
    by destruct r.
Qed.

(** X11.  What the boulderado adapter can raise: [KeyError "token"], an
    exception of the transport or of the parser, [AttributeError] for a
    missing element, or the [ValueError] of [int]; nothing else. *)
Theorem crawl_boulderado_raises get parse site_config e :
  crawl_boulderado get parse site_config = Raise e →
  e = KeyError "token"
  ∨ (∃ url, get url = Raise e)
  ∨ (∃ page, parse page = Raise e)
  ∨ e = AttributeError
  ∨ (∃ s, e = ValueError (invalid_literal s)).
Proof.
  intros He.
  destruct (boulderado_soup get parse site_config) as [soup|e'] eqn:Hsoup.
  - rewrite (crawl_boulderado_eq _ _ _ _ Hsoup) in He.
    do 3 right.
    destruct (boulderado_count soup "act") as [a|ea] eqn:Ha; simpl in He.
    + destruct (boulderado_count soup "free") as [f|ef] eqn:Hf;
        simpl in He; [done|].
      injection He as <-. by eapply boulderado_count_Raise.
    + injection He as <-. by eapply boulderado_count_Raise.
  - unfold crawl_boulderado in He. rewrite Hsoup in He. injection He as <-.
    unfold boulderado_soup, Py.getitem in Hsoup.
    destruct (site_config !! "token") as [token|]; simpl in Hsoup;
      [|injection Hsoup as <-; by left].
    right. destruct (get _) as [page|e''] eqn:Hget; simpl in Hsoup.
    + right. left. by exists page.
    + injection Hsoup as <-. left. by eexists.
Qed.

(** X12.  What the webclimber adapter can raise: a [KeyError] for
    [clientid] or [token], an exception of the transport or of the
    parser, [AttributeError] or [IndexError] from the status text,
    [TypeError], [KeyError] for [style] or [width] or a [ValueError] from
    the bar, or [ZeroDivisionError]; nothing else. *)
Theorem crawl_webclimber_raises get parse site_config e :
  crawl_webclimber get parse site_config = Raise e →
  (e = KeyError "clientid" ∨ e = KeyError "token"
   ∨ (∃ url, get url = Raise e) ∨ (∃ page, parse page = Raise e))
  ∨ (e = AttributeError ∨ e = IndexError)
  ∨ (e = TypeError ∨ e = KeyError "style" ∨ e = KeyError "width"
     ∨ (∃ j n, e = ValueError (dict_update_length j n))
     ∨ (∃ s, e = ValueError (invalid_literal s)))
  ∨ e = ZeroDivisionError.
Proof.
  intros He. unfold crawl_webclimber in He.
  destruct (webclimber_soup get parse site_config) as [soup|e'] eqn:Hsoup;
    simpl in He.
  - right. unfold webclimber_result in He.
    destruct (free_slots_str soup) as [tok|e1] eqn:Htok; simpl in He;
      [|injection He as <-; left; by eapply free_slots_str_Raise].
    destruct (free_slots_of_total tok) as [f Hf]. rewrite Hf in He.
    simpl in He. right.
    destruct (bar_width soup) as [w|e2] eqn:Hw; simpl in He;
      [|injection He as <-; left; by eapply bar_width_Raise].
    right. by eapply slots_Raise.
  - injection He as <-. left.
    unfold webclimber_soup, Py.getitem in Hsoup.
    destruct (site_config !! "clientid") as [clientid|]; simpl in Hsoup;
      [|injection Hsoup as <-; by left].
    destruct (site_config !! "token") as [token|]; simpl in Hsoup;
      [|injection Hsoup as <-; right; by left].
    do 2 right. destruct (get _) as [page|e''] eqn:Hget; simpl in Hsoup.
    + right. by exists page.
    + injection Hsoup as <-. left. by eexists.
Qed.

(** X13.  The division by zero happens in one case only: a document
    whose status text starts with an integer other than -1 and whose bar
    has the width 0. *)
Theorem webclimber_result_zero_division soup :
  webclimber_result soup = Raise ZeroDivisionError
  ↔ ∃ tok f,
      free_slots_str soup = Ok tok
      ∧ Py.int tok = Ok f
      ∧ f ≠ -1
      ∧ bar_width soup = Ok 0.
Proof.
  unfold webclimber_result. split.
  - destruct (free_slots_str soup) as [tok|e1] eqn:Htok; simpl.
    + destruct (free_slots_of tok) as [f|e2] eqn:Hf; simpl.
      * destruct (bar_width soup) as [w|e3] eqn:Hw; simpl.
        -- intros Hz. exists tok, f.
           destruct (decide (f = -1)) as [->|Hne];
             [by rewrite slots_unknown in Hz|].
           destruct (decide (w = 0)) as [->|Hw0];
             [|by rewrite slots_known in Hz].
           repeat split; try done.
           unfold free_slots_of in Hf.
           destruct (Py.int tok) as [f'|[]]; congruence.
        -- intros [= ->].
           apply bar_width_Raise in Hw
             as [?|[?|[?|[(?&?&?)|(?&?)]]]]; done.
      * destruct (free_slots_of_total tok) as [f' Hf']. congruence.
    + intros [= ->]. by apply free_slots_str_Raise in Htok as [?|?].
  - intros (tok & f & Htok & Hint & Hf & Hw).
    rewrite Htok. simpl. rewrite (free_slots_of_int _ _ Hint). simpl.
    rewrite Hw. simpl. by apply slots_known_zero.
Qed.

(** ** The point builder and the clock *)

(** X14.  The reading of the clock goes into the [time] of the message
    and nowhere else: two messages built from the same site and result
    differ in their [time] only. *)
Theorem create_point_message_time utcnow utcnow' site_name site_config data :
  create_point_message utcnow' site_name site_config data
  = {| measurement :=
         measurement (create_point_message utcnow site_name site_config data);
       tags := tags (create_point_message utcnow site_name site_config data);
       time := utcnow';
       fields :=
         fields (create_point_message utcnow site_name site_config data) |}.
Proof.
  unfold create_point_message.
  by destruct (site_config !! "area"), (site_config !! "location").
Qed.

(** ** The loop of [main] *)

Section MainFacts.

Variable get : string → result string.
Variable parse : string → result Bs4.Tag.
Variable utcnow : nat → string.

(** The loop, from any state. *)
Lemma main_fold sites st :
  fold_left (main_site get parse utcnow) sites st
  = {| messages :=
         messages st
         ++ messages_from utcnow (utcnow_calls st)
              (crawled_sites get parse sites);
       output := output st ++ (printed_for get parse <$> sites);
       utcnow_calls :=
         utcnow_calls st + length (crawled_sites get parse sites) |}.
Proof.
  revert st. induction sites as [|[site_name site_config] sites IH];
    intros [ms out n]; simpl.
  - unfold messages_from. simpl.
    by rewrite !app_nil_r, Nat.add_0_r.
  - rewrite IH. unfold main_site, printed_for, crawled_sites. simpl.
    destruct (crawl_site get parse site_name site_config) as [r|e]; simpl.
    + unfold messages_from. simpl. rewrite Nat.add_0_r.
      rewrite <-!app_assoc. simpl. f_equal; [|lia].
      do 2 f_equal. apply imap_ext. intros k x _. simpl.
      by rewrite Nat.add_succ_r.
    + by rewrite <-!app_assoc.
Qed.

(** X15.  The batch handed to [write_points] holds one message for
    each site that is crawled without an exception, in the order of the
    configuration, each built from the result of its site at the next
    reading of the clock; a site that fails leaves no message. *)
Theorem main_messages sites :
  messages (main get parse utcnow sites)
  = imap (λ k x, create_point_message (utcnow k) x.1.1 x.1.2 x.2)
      (crawled_sites get parse sites).
Proof. unfold main. by rewrite main_fold. Qed.


(** X17.  A site that fails does not touch the batch: with or without
    it in the configuration, [write_points] gets the same messages. *)
Theorem main_failure_isolated sites1 site_name site_config sites2 e :
  crawl_site get parse site_name site_config = Raise e →
  messages (main get parse utcnow
              (sites1 ++ (site_name, site_config) :: sites2))
  = messages (main get parse utcnow (sites1 ++ sites2)).
Proof.
  intros He. unfold main. rewrite !main_fold. simpl.
  unfold crawled_sites. rewrite !omap_app. simpl. by rewrite He.
Qed.

End MainFacts.

(** ** The first word of the status text *)

Lemma lstrip_chars_app l1 l2 :
  Py.lstrip_chars (l1 ++ l2)
  = match Py.lstrip_chars l1 with
    | [] => Py.lstrip_chars l2
    | l => l ++ l2
    end.
Proof.
  induction l1 as [|c l1 IH]; simpl; [done|].
  by destruct (Py.isspace c).
Qed.

Lemma lstrip_chars_word_app word l :
  word ≠ [] →
  Forall (λ c, Py.isspace c = false) word →
  Py.lstrip_chars (word ++ l) = word ++ l.
Proof.
  intros Hne Hword. destruct Hword as [|c word' Hc _]; [done|].
  simpl. by rewrite Hc.
Qed.

(** Stripping on the right stops at a word. *)
Lemma rstrip_chars_word_app word l :
  word ≠ [] →
  Forall (λ c, Py.isspace c = false) word →
  Py.rstrip_chars (word ++ l) = word ++ Py.rstrip_chars l.
Proof.
  intros Hne Hword. unfold Py.rstrip_chars.
  rewrite rev_app_distr, lstrip_chars_app.
  assert (Py.lstrip_chars (rev word) = rev word) as Hrev.
  { destruct word as [|c word _] using rev_ind; [done|].
    apply Forall_app in Hword as [_ Hc%Forall_inv].
    rewrite rev_app_distr. simpl. by rewrite Hc. }
  destruct (Py.lstrip_chars (rev l)) as [|x l'] eqn:Hl.
  - rewrite Hrev. simpl. by rewrite rev_involutive, app_nil_r.
  - by rewrite rev_app_distr, rev_involutive.
Qed.

(** What is left of a text that starts with whitespace, once stripped on
    the right, is empty or starts with that whitespace. *)
Lemma rstrip_chars_space_head c l :
  Py.isspace c = true →
  Py.rstrip_chars (c :: l) = []
  ∨ ∃ l', Py.rstrip_chars (c :: l) = c :: l'.
Proof.
  intros Hc. unfold Py.rstrip_chars. simpl. rewrite lstrip_chars_app.
  destruct (Py.lstrip_chars (rev l)) as [|x l'] eqn:Hl.
  - left. simpl. by rewrite Hc.
  - right. rewrite rev_app_distr. simpl. by eexists.
Qed.

Lemma split_ws_chars_word word cur l :
  Forall (λ c, Py.isspace c = false) word →
  Py.split_ws_chars cur (word ++ l) = Py.split_ws_chars (rev word ++ cur) l.
Proof.
  intros Hword. revert cur.
  induction Hword as [|c word Hc _ IH]; intros cur; simpl; [done|].
  rewrite Hc, IH. by rewrite <-app_assoc.
Qed.

Lemma split_ws_chars_first word l :
  word ≠ [] →
  Forall (λ c, Py.isspace c = false) word →
  l = [] ∨ (∃ c l', l = c :: l' ∧ Py.isspace c = true) →
  ∃ words, Py.split_ws_chars [] (word ++ l) = word :: words.
Proof.
  intros Hne Hword Hl. rewrite split_ws_chars_word by done.
  rewrite app_nil_r.
  assert (rev word ≠ []) as Hrev.
  { intros H. apply Hne. by rewrite <-(rev_involutive word), H. }
  destruct Hl as [->|(c & l' & -> & Hc)]; simpl.
  - destruct (rev word) as [|x r] eqn:Hr; [done|].
    rewrite <-Hr, rev_involutive. by eexists.
  - rewrite Hc. destruct (rev word) as [|x r] eqn:Hr; [done|].
    rewrite <-Hr, rev_involutive. by eexists.
Qed.

(** X18.  Of the status text only the first word is used: when the text
    is some whitespace, a word and then nothing or more text after
    whitespace, the word is what [int] is tried on. *)
Theorem free_slots_str_first_word soup status space word rest :
  Bs4.find (Bs4.div_class "status_text") soup = Some status →
  Bs4.text status = space +:+ word +:+ rest →
  Forall (λ c, Py.isspace c = true) (list_ascii_of_string space) →
  word ≠ "" →
  Forall (λ c, Py.isspace c = false) (list_ascii_of_string word) →
  rest = "" ∨ (∃ c rest', rest = String c rest' ∧ Py.isspace c = true) →
  free_slots_str soup = Ok word.
Proof.
  intros Hstatus Htext Hspace Hne Hword Hrest.
  unfold free_slots_str. rewrite Hstatus. simpl. rewrite Htext.
  unfold Py.split_ws, Py.strip.
  rewrite list_ascii_of_string_of_list_ascii, !list_ascii_of_string_app.
  unfold Py.strip_chars.
  assert (list_ascii_of_string word ≠ []) as Hne'.
  { intros H. apply Hne.
    by rewrite <-(string_of_list_ascii_of_string word), H. }
  rewrite lstrip_chars_app, lstrip_chars_spaces by done.
  rewrite lstrip_chars_word_app, rstrip_chars_word_app by done.
  destruct (split_ws_chars_first (list_ascii_of_string word)
              (Py.rstrip_chars (list_ascii_of_string rest)))
    as [words Hwords]; [done|done| |].
  - destruct Hrest as [->|(c & rest' & -> & Hc)]; [by left|].
    simpl list_ascii_of_string.
    destruct (rstrip_chars_space_head c (list_ascii_of_string rest') Hc)
      as [->|[l' ->]]; [by left|right; by eexists _, _].
  - rewrite Hwords. simpl.
    by rewrite string_of_list_ascii_of_string.
Qed.

(** ** Free slots that are a multiple of the width *)

(** X19.  When the free slots are [k] times the width of the bar, the
    total is [100 * k]: the adapter returns [k * (100 - w)] active
    slots. *)
Theorem webclimber_multiple_of_width get parse site_config soup tok k w :
  webclimber_soup get parse site_config = Ok soup →
  free_slots_str soup = Ok tok →
  Py.int tok = Ok (k * w) →
  bar_width soup = Ok w →
  k * w ≠ -1 →
  w ≠ 0 →
  crawl_webclimber get parse site_config
  = Ok {| free := k * w; active := k * (100 - w) |}.
Proof.
  intros Hsoup Htok Hint Hw Hf Hw0.
  rewrite (crawl_webclimber_eq _ _ _ _ _ _ _ Hsoup Htok
             (free_slots_of_int _ _ Hint) Hw).
  rewrite slots_known by done. rewrite Z.div_mul by done.
  do 2 f_equal. lia.
Qed.

(** ** An empty batch *)

(** X20.  [write_points] gets an empty batch exactly when every site of
    the configuration fails. *)
Theorem main_empty_batch get parse utcnow sites :
  messages (main get parse utcnow sites) = []
  ↔ Forall (λ site : string * SiteConfig,
              ∃ e, crawl_site get parse site.1 site.2 = Raise e) sites.
Proof.
  unfold main. rewrite main_fold. simpl. unfold messages_from.
  rewrite <-length_zero_iff_nil, length_imap, length_zero_iff_nil.
  unfold crawled_sites.
  induction sites as [|[site_name site_config] sites IH]; simpl.
  - split; [by constructor|done].
  - destruct (crawl_site get parse site_name site_config) as [r|e] eqn:Hr;
      simpl.
    + split; [done|]. intros [[e He] _]%Forall_cons. simpl in He. congruence.
    + rewrite IH. split.
      * intros H. constructor; [by exists e|done].
      * by intros [_ H]%Forall_cons.
Qed.

(** ** The further properties on the sample documents *)

(** X1: sites that lack a key. *)
Lemma missing_key_raises_witness :
  crawl_site Sample.get (Sample.parse (Sample.boulderado "12" "8"))
    "halle" {[ "token" := "t0k3n" ]}
  = Raise (KeyError "type")
  ∧ crawl_webclimber Sample.get
      (Sample.parse (Sample.webclimber "40 frei" "width:40%"))
      (<[ "clientId" := "42" ]> {[ "token" := "t0k3n" ]})
    = Raise (KeyError "clientid")
  ∧ crawl_webclimber Sample.get
      (Sample.parse (Sample.webclimber "40 frei" "width:40%"))
      {[ "clientid" := "42" ]}
    = Raise (KeyError "token")
  ∧ crawl_boulderado Sample.get (Sample.parse (Sample.boulderado "12" "8"))
      {[ "type" := "boulderado" ]}
    = Raise (KeyError "token").
Proof.
  split; [|split; [|split]].
  - apply (missing_key_raises Sample.get
             (Sample.parse (Sample.boulderado "12" "8"))
             "halle" {[ "token" := "t0k3n" ]}).
    vm_compute. reflexivity.
  - apply (missing_key_raises Sample.get
             (Sample.parse (Sample.webclimber "40 frei" "width:40%"))
             "halle" (<[ "clientId" := "42" ]> {[ "token" := "t0k3n" ]})).
    vm_compute. reflexivity.
  - apply (missing_key_raises Sample.get
             (Sample.parse (Sample.webclimber "40 frei" "width:40%"))
             "halle" {[ "clientid" := "42" ]}).
    + exists "42". vm_compute. reflexivity.
    + vm_compute. reflexivity.
  - apply (missing_key_raises Sample.get
             (Sample.parse (Sample.boulderado "12" "8"))
             "halle" {[ "type" := "boulderado" ]}).
    vm_compute. reflexivity.
Defined.

(** X2: a transport that is down, a parser that rejects the body, and
    a document that is fetched and parsed. *)
Lemma boulderado_fetch_witness :
  crawl_boulderado (λ _, Raise RequestException)
    (Sample.parse (Sample.boulderado "12" "8")) Sample.site_boulderado
  = Raise RequestException
  ∧ crawl_boulderado Sample.get (λ _, Raise ParserRejectedMarkup)
      Sample.site_boulderado
    = Raise ParserRejectedMarkup
  ∧ crawl_boulderado SampleSites.get SampleSites.parse Sample.site_boulderado
    = boulderado_result (Sample.boulderado "12" "8").
Proof.
  split; [|split].
  - apply (boulderado_fetch (λ _, Raise RequestException)
             (Sample.parse (Sample.boulderado "12" "8"))
             Sample.site_boulderado "t0k3n").
    + vm_compute. reflexivity.
    + reflexivity.
  - apply (boulderado_fetch Sample.get (λ _, Raise ParserRejectedMarkup)
             Sample.site_boulderado "t0k3n") with (page := "").
    + vm_compute. reflexivity.
    + reflexivity.
    + reflexivity.
  - apply (boulderado_fetch SampleSites.get SampleSites.parse
             Sample.site_boulderado "t0k3n")
      with (page := "https://www.boulderado.de/boulderadoweb/gym-clientcounter/index.php?mode=get&token=t0k3n").
    + vm_compute. reflexivity.
    + reflexivity.
    + reflexivity.
Defined.

(** X3: a transport that is down, a parser that rejects the body, and
    a document that is fetched and parsed. *)
Lemma webclimber_fetch_witness :
  crawl_webclimber (λ _, Raise RequestException)
    (Sample.parse (Sample.webclimber "40 frei" "width:40%"))
    Sample.site_webclimber
  = Raise RequestException
  ∧ crawl_webclimber Sample.get (λ _, Raise ParserRejectedMarkup)
      Sample.site_webclimber
    = Raise ParserRejectedMarkup
  ∧ crawl_webclimber SampleSites.get SampleSites.parse Sample.site_webclimber
    = webclimber_result (Sample.webclimber "40 frei" "width:40%").
Proof.
  split; [|split].
  - apply (webclimber_fetch (λ _, Raise RequestException)
             (Sample.parse (Sample.webclimber "40 frei" "width:40%"))
             Sample.site_webclimber "42" "t0k3n").
    + vm_compute. reflexivity.
    + vm_compute. reflexivity.
    + reflexivity.
  - apply (webclimber_fetch Sample.get (λ _, Raise ParserRejectedMarkup)
             Sample.site_webclimber "42" "t0k3n") with (page := "").
    + vm_compute. reflexivity.
    + vm_compute. reflexivity.
    + reflexivity.
    + reflexivity.
  - apply (webclimber_fetch SampleSites.get SampleSites.parse
             Sample.site_webclimber "42" "t0k3n")
      with (page := "https://42.webclimber.de/de/trafficlight?key=t0k3n").
    + vm_compute. reflexivity.
    + vm_compute. reflexivity.
    + reflexivity.
    + reflexivity.
Defined.

(** X4: a document of the other vendor, and a blank status text. *)
Lemma webclimber_status_missing_or_blank_witness :
  crawl_webclimber Sample.get (Sample.parse (Sample.boulderado "12" "8"))
    Sample.site_webclimber
  = Raise AttributeError
  ∧ crawl_webclimber Sample.get
      (Sample.parse (Sample.webclimber "  " "width:40%"))
      Sample.site_webclimber
    = Raise IndexError.
Proof.
  split.
  - apply (webclimber_status_missing_or_blank Sample.get
             (Sample.parse (Sample.boulderado "12" "8"))
             Sample.site_webclimber (Sample.boulderado "12" "8")).
    + reflexivity.
    + vm_compute. reflexivity.
  - destruct (webclimber_status_missing_or_blank Sample.get
                (Sample.parse (Sample.webclimber "  " "width:40%"))
                Sample.site_webclimber (Sample.webclimber "  " "width:40%"))
      as [_ Hblank]; [reflexivity|].
    apply (Hblank (Bs4.mkTag "div" {[ "class" := "status_text" ]}
                     [Bs4.NavigableString "  "])).
    + vm_compute. reflexivity.
    + repeat constructor.
Defined.

(** X5: a document without a bar, and a bar without a style. *)
Lemma webclimber_bar_missing_witness :
  crawl_webclimber Sample.get
    (Sample.parse
       (Sample.document
          [Bs4.Element "div" {[ "class" := "status_text" ]}
             [Bs4.NavigableString "40 frei"]]))
    Sample.site_webclimber
  = Raise TypeError
  ∧ crawl_webclimber Sample.get
      (Sample.parse
         (Sample.document
            [Bs4.Element "div" {[ "class" := "status_text" ]}
               [Bs4.NavigableString "40 frei"];
             Bs4.Element "div" {[ "class" := "bar" ]} []]))
      Sample.site_webclimber
    = Raise (KeyError "style").
Proof.
  split.
  - apply (webclimber_bar_missing Sample.get
             (Sample.parse
                (Sample.document
                   [Bs4.Element "div" {[ "class" := "status_text" ]}
                      [Bs4.NavigableString "40 frei"]]))
             Sample.site_webclimber
             (Sample.document
                [Bs4.Element "div" {[ "class" := "status_text" ]}
                   [Bs4.NavigableString "40 frei"]]) "40").
    + reflexivity.
    + vm_compute. reflexivity.
    + vm_compute. reflexivity.
  - destruct (webclimber_bar_missing Sample.get
                (Sample.parse
                   (Sample.document
                      [Bs4.Element "div" {[ "class" := "status_text" ]}
                         [Bs4.NavigableString "40 frei"];
                       Bs4.Element "div" {[ "class" := "bar" ]} []]))
                Sample.site_webclimber
                (Sample.document
                   [Bs4.Element "div" {[ "class" := "status_text" ]}
                      [Bs4.NavigableString "40 frei"];
                    Bs4.Element "div" {[ "class" := "bar" ]} []]) "40")
      as [_ Hstyle]; [reflexivity|vm_compute; reflexivity|].
    apply (Hstyle (Bs4.mkTag "div" {[ "class" := "bar" ]} [])).
    + vm_compute. reflexivity.
    + vm_compute. reflexivity.
Defined.

(** X6: [width:40%;]. *)
Lemma bar_width_trailing_semicolon_raises_witness :
  ∃ j n,
    bar_width (Sample.webclimber "40 frei" "width:40%;")
    = Raise (ValueError (dict_update_length j n)).
Proof.
  apply (bar_width_trailing_semicolon_raises
           (Sample.webclimber "40 frei" "width:40%;")
           (Bs4.mkTag "div"
              (<[ "style" := "width:40%;" ]> {[ "class" := "bar" ]}) [])
           "width:40%").
  - vm_compute. reflexivity.
  - vm_compute. reflexivity.
Defined.

(** X7: [width: 40%], with a space after the colon. *)
Lemma bar_width_single_declaration_witness :
  bar_width (Sample.webclimber "40 frei" "width: 40%") = width_int " 40%".
Proof.
  apply (bar_width_single_declaration
           (Sample.webclimber "40 frei" "width: 40%")
           (Bs4.mkTag "div"
              (<[ "style" := "width: 40%" ]> {[ "class" := "bar" ]}) [])
           " 40%").
  - vm_compute. reflexivity.
  - vm_compute. reflexivity.
  - simpl. rewrite !not_elem_of_cons. repeat split; try done.
    apply not_elem_of_nil.
  - simpl. rewrite !not_elem_of_cons. repeat split; try done.
    apply not_elem_of_nil.
Defined.

(** X8: a total of 100. *)
Lemma webclimber_total_hundreds_witness :
  (100 | free {| free := 40; active := 60 |}
         + active {| free := 40; active := 60 |}).
Proof.
  apply (webclimber_total_hundreds Sample.get
           (Sample.parse (Sample.webclimber "40 frei" "width:40%"))
           Sample.site_webclimber).
  vm_compute. reflexivity.
Defined.

(** X9: 5 free slots and a bar of 90%. *)
Lemma webclimber_fewer_slots_than_width_witness :
  crawl_webclimber Sample.get
    (Sample.parse (Sample.webclimber "5 frei" "width:90%"))
    Sample.site_webclimber
  = Ok {| free := 5; active := -5 |}.
Proof.
  apply (webclimber_fewer_slots_than_width Sample.get
           (Sample.parse (Sample.webclimber "5 frei" "width:90%"))
           Sample.site_webclimber
           (Sample.webclimber "5 frei" "width:90%") "5" 5 90).
  - reflexivity.
  - vm_compute. reflexivity.
  - reflexivity.
  - vm_compute. reflexivity.
  - lia.
Defined.

(** X10: the counters "12" and "8", read and returned. *)
Lemma crawl_boulderado_Ok_iff_witness :
  crawl_boulderado Sample.get (Sample.parse (Sample.boulderado "12" "8"))
    Sample.site_boulderado
  = Ok {| free := 8; active := 12 |}.
Proof.
  apply (crawl_boulderado_Ok_iff Sample.get
           (Sample.parse (Sample.boulderado "12" "8"))
           Sample.site_boulderado).
  exists (Sample.boulderado "12" "8").
  split; [reflexivity|]. split; vm_compute; reflexivity.
Defined.

(** X11: a counter that reads "n/a". *)
Lemma crawl_boulderado_raises_witness :
  ValueError (invalid_literal "n/a") = KeyError "token"
  ∨ (∃ url, Sample.get url = Raise (ValueError (invalid_literal "n/a")))
  ∨ (∃ page,
       Sample.parse (Sample.boulderado "n/a" "8") page
       = Raise (ValueError (invalid_literal "n/a")))
  ∨ ValueError (invalid_literal "n/a") = AttributeError
  ∨ (∃ s, ValueError (invalid_literal "n/a") = ValueError (invalid_literal s)).
Proof.
  apply (crawl_boulderado_raises Sample.get
           (Sample.parse (Sample.boulderado "n/a" "8"))
           Sample.site_boulderado).
  vm_compute. reflexivity.
Defined.

(** X12: a bar whose style has no width. *)
Lemma crawl_webclimber_raises_witness :
  (KeyError "width" = KeyError "clientid" ∨ KeyError "width" = KeyError "token"
   ∨ (∃ url, Sample.get url = Raise (KeyError "width"))
   ∨ (∃ page,
        Sample.parse (Sample.webclimber "40 frei" "height:4px") page
        = Raise (KeyError "width")))
  ∨ (KeyError "width" = AttributeError ∨ KeyError "width" = IndexError)
  ∨ (KeyError "width" = TypeError ∨ KeyError "width" = KeyError "style"
     ∨ KeyError "width" = KeyError "width"
     ∨ (∃ j n, KeyError "width" = ValueError (dict_update_length j n))
     ∨ (∃ s, KeyError "width" = ValueError (invalid_literal s)))
  ∨ KeyError "width" = ZeroDivisionError.
Proof.
  apply (crawl_webclimber_raises Sample.get
           (Sample.parse (Sample.webclimber "40 frei" "height:4px"))
           Sample.site_webclimber).
  vm_compute. reflexivity.
Defined.

(** X13: "17 frei" and [width:0%]. *)
Lemma webclimber_result_zero_division_witness :
  webclimber_result (Sample.webclimber "17 frei" "width:0%")
  = Raise ZeroDivisionError.
Proof.
  apply (webclimber_result_zero_division
           (Sample.webclimber "17 frei" "width:0%")).
  exists "17", 17. split; [vm_compute; reflexivity|].
  split; [reflexivity|]. split; [lia|]. vm_compute. reflexivity.
Defined.

(** X17: the sample installation with and without the site of an unknown
    type. *)
Lemma main_failure_isolated_witness :
  messages (main SampleSites.get SampleSites.parse SampleSites.utcnow
              SampleSites.sites)
  = messages (main SampleSites.get SampleSites.parse SampleSites.utcnow
                [("halle", Sample.site_boulderado);
                 ("wand", Sample.site_webclimber)]).
Proof.
  apply (main_failure_isolated SampleSites.get SampleSites.parse
           SampleSites.utcnow [("halle", Sample.site_boulderado)]
           "turm" (<[ "type" := "vertical" ]> Sample.site_boulderado)
           [("wand", Sample.site_webclimber)]
           (ValueError (message
              "unknown boulder arena type: vertical for site turm."))).
  vm_compute. reflexivity.
Defined.

(** X18: the status text " 40 frei". *)
Lemma free_slots_str_first_word_witness :
  free_slots_str (Sample.webclimber " 40 frei" "width:40%") = Ok "40".
Proof.
  apply (free_slots_str_first_word
           (Sample.webclimber " 40 frei" "width:40%")
           (Bs4.mkTag "div" {[ "class" := "status_text" ]}
              [Bs4.NavigableString " 40 frei"])
           " " "40" " frei").
  - vm_compute. reflexivity.
  - reflexivity.
  - repeat constructor.
  - discriminate.
  - repeat constructor.
  - right. exists " "%char, "frei". split; reflexivity.
Defined.

(** X19: 40 free slots and a bar of 20%. *)
Lemma webclimber_multiple_of_width_witness :
  crawl_webclimber Sample.get
    (Sample.parse (Sample.webclimber "40 frei" "width:20%"))
    Sample.site_webclimber
  = Ok {| free := 2 * 20; active := 2 * (100 - 20) |}.
Proof.
  apply (webclimber_multiple_of_width Sample.get
           (Sample.parse (Sample.webclimber "40 frei" "width:20%"))
           Sample.site_webclimber
           (Sample.webclimber "40 frei" "width:20%") "40" 2 20).
  - reflexivity.
  - vm_compute. reflexivity.
  - reflexivity.
  - vm_compute. reflexivity.
  - lia.
  - lia.
Defined.

(** X20: an installation whose only site has an unknown type. *)
Lemma main_empty_batch_witness :
  messages (main SampleSites.get SampleSites.parse SampleSites.utcnow
              [("turm", <[ "type" := "vertical" ]> Sample.site_boulderado)])
  = [].
Proof.
  apply (main_empty_batch SampleSites.get SampleSites.parse
           SampleSites.utcnow
           [("turm", <[ "type" := "vertical" ]> Sample.site_boulderado)]).
  constructor; [|constructor].
  eexists. vm_compute. reflexivity.
Defined.
